(** * run_prompts.py: change detection, agent dispatch and result collection

    A shallow embedding of [scripts/run_prompts.py].  Python functions that
    call out of the interpreter (subprocess, the file system, the environment,
    the logger) are written in a state-and-exception monad [M]; everything the
    script cannot decide by itself (what a child process prints, which name a
    temporary file gets, what the YAML parser accepts) is a field of the
    [Host] class below.

    Conventions.
    - A Python [str] is the [string] of its UTF-8 encoding: a code point
      takes one to four bytes, a lone surrogate the three bytes of its
      number.  [len] counts code points, not bytes, and whitespace is all
      of [str.isspace]: U+0009-U+000D, U+001C-U+0020, U+0085, U+00A0,
      U+1680, U+2000-U+200A, U+2028, U+2029, U+202F, U+205F and U+3000.
    - The file system is a finite map from paths to entries.  Every path
      can be looked up, and the temporary file of [execute_agent] can be
      created, written and removed: runs in which [Path.exists] or
      [tempfile.NamedTemporaryFile] raise are outside the model.
    - The trace records every [subprocess.run] call and every logger call
      whose message is a literal.  Logger calls whose message interpolates
      run-time values do not influence control flow and are left out.
    - [SystemExit] is kept apart from exceptions: [except Exception] does not
      catch it. *)

From Stdlib Require Import ZArith Ascii String List Bool Lia.
From stdpp Require Import base option list gmap strings pretty.
Import ListNotations.
Local Open Scope string_scope.
Local Open Scope list_scope.
Local Open Scope Z_scope.

(* ===================================================================== *)
(** ** Python string primitives *)
(* ===================================================================== *)

Module PyStr.

(** The value of a byte. *)
Definition code (c : ascii) : nat := nat_of_ascii c.

(** A byte that continues a multi-byte character: [10xxxxxx]. *)
Definition continues (c : ascii) : bool :=
  (128 <=? code c)%nat && (code c <=? 191)%nat.

(** [len(s)]: the number of code points, one for every byte that starts a
    character. *)
Fixpoint len (s : string) : nat :=
  match s with
  | EmptyString => 0%nat
  | String c s' => ((if continues c then 0 else 1) + len s')%nat
  end.

(** [str.isspace] by the length of the character's encoding.  One byte:
    U+0009-U+000D and U+001C-U+0020. *)
Definition is_space1 (c : ascii) : bool :=
  ((9 <=? code c)%nat && (code c <=? 13)%nat) ||
  ((28 <=? code c)%nat && (code c <=? 32)%nat).

(** Two bytes: U+0085 ([C2 85]) and U+00A0 ([C2 A0]). *)
Definition is_space2 (c1 c2 : ascii) : bool :=
  (code c1 =? 194)%nat && ((code c2 =? 133)%nat || (code c2 =? 160)%nat).

(** Three bytes: U+1680 ([E1 9A 80]), U+2000-U+200A ([E2 80 80-8A]),
    U+2028, U+2029, U+202F ([E2 80 A8], [A9], [AF]), U+205F ([E2 81 9F])
    and U+3000 ([E3 80 80]). *)
Definition is_space3 (c1 c2 c3 : ascii) : bool :=
  ((code c1 =? 225)%nat && (code c2 =? 154)%nat && (code c3 =? 128)%nat) ||
  ((code c1 =? 226)%nat && (code c2 =? 128)%nat &&
     (((128 <=? code c3)%nat && (code c3 <=? 138)%nat) ||
      (code c3 =? 168)%nat || (code c3 =? 169)%nat || (code c3 =? 175)%nat)) ||
  ((code c1 =? 226)%nat && (code c2 =? 129)%nat && (code c3 =? 159)%nat) ||
  ((code c1 =? 227)%nat && (code c2 =? 128)%nat && (code c3 =? 128)%nat).

(** The number of bytes of the whitespace character [s] begins with, 0 when
    it begins with none.  No encoding of a whitespace character begins
    with a continuation byte, so inside a character the answer is 0. *)
Definition space_len (s : string) : nat :=
  match s with
  | String c1 r1 =>
      if is_space1 c1 then 1%nat
      else match r1 with
           | String c2 r2 =>
               if is_space2 c1 c2 then 2%nat
               else match r2 with
                    | String c3 _ => if is_space3 c1 c2 c3 then 3%nat else 0%nat
                    | EmptyString => 0%nat
                    end
           | EmptyString => 0%nat
           end
  | EmptyString => 0%nat
  end.

Definition is_empty (s : string) : bool :=
  match s with EmptyString => true | String _ _ => false end.

(** Truthiness of a [str]: [if s:]. *)
Definition truthy (s : string) : bool := negb (is_empty s).

(** [s.lstrip()]: whitespace characters are dropped from the front;
    [skip] counts the bytes still to drop of the one being removed. *)
Fixpoint lstrip_go (skip : nat) (s : string) : string :=
  match s with
  | EmptyString => EmptyString
  | String _ s' =>
      match skip with
      | S k => lstrip_go k s'
      | O => match space_len s with
             | O => s
             | S k => lstrip_go k s'
             end
      end
  end.

Definition lstrip (s : string) : string := lstrip_go 0 s.

(** [s[n:]] for a count of bytes. *)
Fixpoint drop (n : nat) (s : string) : string :=
  match n, s with
  | S k, String _ s' => drop k s'
  | _, _ => s
  end.

(** [s.rstrip()]: the string is cut at the first place from which on it
    holds whitespace characters only. *)
Fixpoint rstrip (s : string) : string :=
  match s with
  | EmptyString => EmptyString
  | String c s' =>
      if is_empty (lstrip s) then EmptyString else String c (rstrip s')
  end.

(** [s.strip()] *)
Definition strip (s : string) : string := rstrip (lstrip s).

(** [s.split()]: maximal runs of non-whitespace characters; [cur] is the
    run being read, [skip] as in [lstrip_go]. *)
Fixpoint split_ws_go (skip : nat) (cur : string) (s : string) : list string :=
  match s with
  | EmptyString => if is_empty cur then [] else [cur]
  | String c s' =>
      match skip with
      | S k => split_ws_go k cur s'
      | O => match space_len s with
             | O => split_ws_go 0 (cur +:+ String c EmptyString) s'
             | S k => if is_empty cur then split_ws_go k EmptyString s'
                      else cur :: split_ws_go k EmptyString s'
             end
      end
  end.

Definition split_ws (s : string) : list string := split_ws_go 0 EmptyString s.

(** [sep.join(l)] *)
Fixpoint join (sep : string) (l : list string) : string :=
  match l with
  | [] => EmptyString
  | [x] => x
  | x :: rest => x +:+ sep +:+ join sep rest
  end.

(** [s] is one whitespace character and nothing else. *)
Definition is_space_char (s : string) : bool :=
  (0 <? space_len s)%nat && (space_len s =? String.length s)%nat.

(** The last character of [s] is whitespace: some end of [s] is one
    whitespace character. *)
Fixpoint ends_with_space (s : string) : bool :=
  match s with
  | EmptyString => false
  | String _ s' => is_space_char s || ends_with_space s'
  end.

(** [s.split(sep)] for a one-character separator: the fields between
    separators, empty fields kept; [''.split(sep) = ['']]. *)
Fixpoint split_on (sep : ascii) (s : string) : list string :=
  match s with
  | EmptyString => [EmptyString]
  | String c s' =>
      if Ascii.eqb c sep then EmptyString :: split_on sep s'
      else match split_on sep s' with
           | [] => [String c EmptyString]
           | f :: fs => String c f :: fs
           end
  end.

(** [sub in s] for strings. *)
Fixpoint contains (sub s : string) : bool :=
  String.prefix sub s ||
  match s with
  | EmptyString => false
  | String _ s' => contains sub s'
  end.

Definition newline : ascii := ascii_of_nat 10.

End PyStr.

(** The comprehension every strategy applies to a command's output:
    [[f.strip() for f in stdout.split('\n') if f.strip()]]. *)
Definition parse_name_lines (stdout : string) : list string :=
  map PyStr.strip
      (filter (fun f => PyStr.truthy (PyStr.strip f) = true)
              (PyStr.split_on PyStr.newline stdout)).

(* ===================================================================== *)
(** ** Exceptions, processes, files and the interpreter state *)
(* ===================================================================== *)

(** The exception classes the script raises or names in an [except] clause.
    [OSError] stands for the [OSError] subclasses other than
    [FileNotFoundError]; [OtherException] for a bare [Exception] and every
    remaining subclass of it. *)
Inductive exn_class :=
| CalledProcessError
| TimeoutExpired
| FileNotFoundError
| ValueError
| OSError
| OtherException.

Record exn := mk_exn { exn_cls : exn_class; exn_msg : string }.

(** [str(e)] *)
Definition str_exn (e : exn) : string := exn_msg e.

Definition is_class (c : exn_class) (e : exn) : bool :=
  match c, exn_cls e with
  | CalledProcessError, CalledProcessError
  | TimeoutExpired, TimeoutExpired
  | FileNotFoundError, FileNotFoundError
  | ValueError, ValueError
  | OSError, OSError
  | OtherException, OtherException => true
  | _, _ => false
  end.

(** [subprocess.CompletedProcess] with [capture_output=True, text=True]. *)
Record CompletedProcess := mk_cp {
  returncode : Z;
  stdout : string;
  stderr : string
}.

(** A directory entry: what [Path.is_file], [os.access(_, R_OK)],
    [Path.stat().st_size] and [Path.read_text] see. *)
Record file := mk_file {
  is_regular : bool;
  readable : bool;
  st_size : Z;
  content : string
}.

(** A regular readable file holding [text]; its size is in bytes. *)
Definition plain_file (text : string) : file :=
  {| is_regular := true; readable := true;
     st_size := Z.of_nat (String.length text); content := text |}.

(** What the process can observe and change: the file system, [os.environ],
    the working directory, and the rest of the machine (repository, network,
    installed programs) as an opaque [X]. *)
Record world (X : Type) := mk_world {
  fs : gmap string file;
  environ : gmap string string;
  cwd : string;
  ext : X
}.
Arguments mk_world {X} _ _ _ _.
Arguments fs {X} _.
Arguments environ {X} _.
Arguments cwd {X} _.
Arguments ext {X} _.

Inductive level := DEBUG | INFO | WARNING | ERROR.

Inductive event :=
| EvLog (lvl : level) (msg : string)
| EvRun (cmd : list string) (stdin : option string).

Record state (X : Type) := mk_state {
  st_world : world X;
  st_trace : list event
}.
Arguments mk_state {X} _ _.
Arguments st_world {X} _.
Arguments st_trace {X} _.

(** How a Python call ends: a value, an exception, or [sys.exit(code)]. *)
Inductive result (A : Type) :=
| Ok (a : A)
| Raise (e : exn)
| Exit (code : Z).
Arguments Ok {A} _.
Arguments Raise {A} _.
Arguments Exit {A} _.

(** What [yaml.safe_load] or [json.loads] made of a string: a parse error,
    a list (with [str(item)] already applied to the items), or another value. *)
Inductive parsed :=
| ParseError
| ParsedList (items : list string)
| ParsedOther.

(** The namespace [parser.parse_args()] returns. *)
Record Args := mk_args {
  rules : string;
  custom_prompt : string;
  agent : string;
  scope : string;
  custom_files : string
}.

(** How [parser.parse_args()] ends: with the namespace, or with one of the
    two ways in which [argparse] ends the process by itself, the usage
    error of a command line it rejects (status 2) and the help text of
    [-h] (status 0). *)
Inductive parse_result :=
| Namespace (args : Args)
| UsageError
| HelpRequested.

(** Everything outside the script. *)
Class Host := {
  ext_state : Type;
  (** [subprocess.run(cmd, stdin=.., env=..)] before [check] is applied:
      the child completes, or starting or waiting for it raises. *)
  spawn : list string -> option string -> option (gmap string string) ->
          world ext_state -> (exn + CompletedProcess) * world ext_state;
  (** [str] of the [CalledProcessError] that [check=True] raises. *)
  called_process_error_msg : list string -> Z -> string;
  (** [str] of the [OSError] that reading a path raises. *)
  os_error_msg : string -> string;
  (** The name [tempfile.NamedTemporaryFile(suffix='.txt')] picks. *)
  mktemp : world ext_state -> string;
  yaml_safe_load : string -> parsed;
  json_loads : string -> parsed;
  (** [parser.parse_args()] for the five optional positionals of [main],
      applied to [sys.argv[1:]]. *)
  parse_args : list string -> parse_result;
  (** [json.dumps(results, indent=2)] *)
  json_dump : list (string * string) -> string;
  (** pathlib: [Path(a) / b], [Path(p).stem], [Path(p).is_absolute()],
      [Path(p).resolve()]. *)
  path_join : string -> string -> string;
  path_stem : string -> string;
  path_is_absolute : string -> bool;
  path_resolve : world ext_state -> string -> string;
  (** [rules_dir.glob("*.prompt")], as paths. *)
  glob_prompts : world ext_state -> string -> list string;
  (** [os.path.expandvars], [os.path.expanduser("~/.cursor/bin")],
      [os.path.dirname(os.path.dirname(__file__))]. *)
  expandvars : gmap string string -> string -> string;
  cursor_bin : string;
  script_parent_dir : string
}.

Section Interp.
Context `{Host}.

Definition M (A : Type) : Type :=
  state ext_state -> result A * state ext_state.

Definition ret {A} (a : A) : M A := fun st => (Ok a, st).

Definition bind {A B} (m : M A) (k : A -> M B) : M B :=
  fun st =>
    match m st with
    | (Ok a, st') => k a st'
    | (Raise e, st') => (Raise e, st')
    | (Exit c, st') => (Exit c, st')
    end.

Definition raise {A} (e : exn) : M A := fun st => (Raise e, st).

(** [sys.exit(code)] *)
Definition sys_exit {A} (code : Z) : M A := fun st => (Exit code, st).

(** [try: body except Exception as e: handler(e)].  [SystemExit] passes. *)
Definition try_except {A} (body : M A) (handler : exn -> M A) : M A :=
  fun st =>
    match body st with
    | (Ok a, st') => (Ok a, st')
    | (Raise e, st') => handler e st'
    | (Exit c, st') => (Exit c, st')
    end.

(** [try: body except C as e: handler(e)] for one exception class. *)
Definition try_except_class {A} (c : exn_class) (body : M A)
           (handler : exn -> M A) : M A :=
  fun st =>
    match body st with
    | (Ok a, st') => (Ok a, st')
    | (Raise e, st') =>
        if is_class c e then handler e st' else (Raise e, st')
    | (Exit c, st') => (Exit c, st')
    end.

(** [try: body finally: cleanup] *)
Definition try_finally {A} (body : M A) (cleanup : M unit) : M A :=
  fun st =>
    match body st with
    | (r, st') =>
        match cleanup st' with
        | (Ok _, st'') => (r, st'')
        | (Raise e, st'') => (Raise e, st'')
        | (Exit c, st'') => (Exit c, st'')
        end
    end.

Definition emit (ev : event) : M unit :=
  fun st => (Ok tt, mk_state (st_world st) (st_trace st ++ [ev])).

Definition log (lvl : level) (msg : string) : M unit := emit (EvLog lvl msg).

Definition get_world : M (world ext_state) := fun st => (Ok (st_world st), st).

Definition put_world (w : world ext_state) : M unit :=
  fun st => (Ok tt, mk_state w (st_trace st)).

End Interp.

Declare Scope py_scope.
Delimit Scope py_scope with py.
Notation "x <- m ;; k" := (bind m (fun x => k))
  (at level 100, m at next level, right associativity) : py_scope.
Notation "m ;;; k" := (bind m (fun _ => k))
  (at level 100, right associativity) : py_scope.
Local Open Scope py_scope.

Section Os.
Context `{Host}.

(** [subprocess.run(cmd, stdin=.., env=.., capture_output=True, text=True,
    check=check)].  [env = None] is the inherited environment. *)
Definition subprocess_run_with (cmd : list string) (stdin : option string)
           (env : option (gmap string string)) (check : bool)
  : M CompletedProcess :=
  emit (EvRun cmd stdin) ;;;
  w <- get_world ;;
  match spawn cmd stdin env w with
  | (inl e, w') => put_world w' ;;; raise e
  | (inr cp, w') =>
      put_world w' ;;;
      if check && negb (returncode cp =? 0)
      then raise (mk_exn CalledProcessError
                         (called_process_error_msg cmd (returncode cp)))
      else ret cp
  end.

Definition subprocess_run (cmd : list string) (stdin : option string)
           (check : bool) : M CompletedProcess :=
  subprocess_run_with cmd stdin None check.

(** [os.environ.get(name)] *)
Definition environ_get (name : string) : M (option string) :=
  w <- get_world ;; ret (environ w !! name).

(** [if not v] for an [Optional[str]]: [None] and [''] are falsy. *)
Definition opt_truthy (v : option string) : bool :=
  match v with None => false | Some s => PyStr.truthy s end.

End Os.

(* ===================================================================== *)
(** ** class GitAnalyzer *)
(* ===================================================================== *)

Module GitAnalyzer.
Section GitAnalyzer.
Context `{Host}.

(** Strategy 1: fetch, compute the merge base, diff against it. *)
Definition _try_merge_base : M (list string) :=
  log DEBUG "Strategy 1: Using merge-base with explicit calculation" ;;;
  _ <- subprocess_run ["git"; "fetch"; "origin"; "main:main"] None false ;;
  result <- subprocess_run ["git"; "merge-base"; "HEAD"; "main"] None false ;;
  if returncode result =? 0 then
    let merge_base := PyStr.strip (stdout result) in
    result <- subprocess_run
                ["git"; "diff"; "--name-only"; merge_base; "HEAD"] None true ;;
    ret (parse_name_lines (stdout result))
  else
    raise (mk_exn OtherException "Could not determine merge-base").

(** Strategy 2 *)
Definition _try_three_dot_syntax : M (list string) :=
  log DEBUG "Strategy 2: Trying git diff --name-only origin/main...HEAD" ;;;
  result <- subprocess_run
              ["git"; "diff"; "--name-only"; "origin/main...HEAD"] None true ;;
  ret (parse_name_lines (stdout result)).

(** Strategy 3 *)
Definition _try_two_dot_syntax : M (list string) :=
  log DEBUG "Strategy 3: Trying git diff --name-only origin/main..HEAD" ;;;
  result <- subprocess_run
              ["git"; "diff"; "--name-only"; "origin/main..HEAD"] None true ;;
  ret (parse_name_lines (stdout result)).

(** Strategy 4 *)
Definition _try_github_api : M (list string) :=
  log DEBUG "Strategy 4: Using GitHub API to get changed files" ;;;
  pr_number <- environ_get "GITHUB_EVENT_NUMBER" ;;
  repo <- environ_get "GITHUB_REPOSITORY" ;;
  if negb (opt_truthy pr_number) || negb (opt_truthy repo) then
    raise (mk_exn OtherException "Missing GitHub environment variables")
  else
    let pr_number := default "" pr_number in
    let repo := default "" repo in
    result <- subprocess_run
                ["gh"; "api";
                 "repos/" +:+ repo +:+ "/pulls/" +:+ pr_number +:+ "/files";
                 "--jq"; ".[].filename"] None true ;;
    ret (parse_name_lines (stdout result)).

(** Strategy 5 *)
Definition _try_merge_commit : M (list string) :=
  log DEBUG "Strategy 5: Checking if HEAD is a merge commit" ;;;
  result <- subprocess_run
              ["git"; "show"; "--format=%P"; "-s"; "HEAD"] None true ;;
  let parents := PyStr.split_ws (PyStr.strip (stdout result)) in
  if (1 <? length parents)%nat then
    log DEBUG "HEAD is a merge commit, getting files from merge" ;;;
    result <- subprocess_run
                ["git"; "diff-tree"; "--no-commit-id"; "--name-only"; "-r"; "HEAD"]
                None true ;;
    ret (parse_name_lines (stdout result))
  else
    raise (mk_exn OtherException "HEAD is not a merge commit").

(** Strategy 6 *)
Definition _try_single_commit : M (list string) :=
  log DEBUG "Strategy 6: Final fallback - single commit diff" ;;;
  result <- subprocess_run
              ["git"; "diff"; "--name-only"; "HEAD~1"; "HEAD"] None true ;;
  ret (parse_name_lines (stdout result)).

Definition strategies : list (M (list string)) :=
  [ _try_merge_base;
    _try_three_dot_syntax;
    _try_two_dot_syntax;
    _try_github_api;
    _try_merge_commit;
    _try_single_commit ].

(** Truthiness of a list: [if files:]. *)
Definition nonempty {A} (l : list A) : bool :=
  match l with [] => false | _ :: _ => true end.

(** The [for strategy in strategies] loop with its [try]/[except] body and
    the statements after the loop.  [None] from the body is "fell through
    to the next iteration". *)
Fixpoint try_each (ss : list (M (list string))) : M (list string) :=
  match ss with
  | [] =>
      log WARNING "No changed files detected with any strategy" ;;;
      ret []
  | strategy :: rest =>
      r <- try_except
             (files <- strategy ;;
              ret (if nonempty files then Some files else None))
             (fun _ => ret None) ;;
      match r with
      | Some files => ret files
      | None => try_each rest
      end
  end.

Definition get_changed_files : M (list string) :=
  log INFO "Detecting changed files using multiple strategies" ;;;
  try_each strategies.

Definition get_file_context (scope : string) : M string :=
  if String.eqb scope "all" then
    ret "Analyze the entire codebase in this repository."
  else
    changed_files <- get_changed_files ;;
    if nonempty changed_files then
      let files_str := PyStr.join " " changed_files in
      ret ("Focus ONLY on these files changed in this PR: " +:+ files_str)
    else
      ret "No changed files detected. Analyze the current repository state.".

End GitAnalyzer.
End GitAnalyzer.

(* ===================================================================== *)
(** ** Files *)
(* ===================================================================== *)

Section Files.
Context `{Host}.

(** [Path.exists()].  The map answers for every path: a path below a
    directory that may not be searched, for which [Path.exists] raises
    [PermissionError], has no counterpart in [fs]. *)
Definition path_exists (p : string) : M bool :=
  w <- get_world ;; ret (bool_decide (is_Some (fs w !! p))).

(** [Path.read_text()] and [open(p, 'r').read()] *)
Definition read_text (p : string) : M string :=
  w <- get_world ;;
  match fs w !! p with
  | None => raise (mk_exn FileNotFoundError (os_error_msg p))
  | Some f =>
      if is_regular f && readable f then ret (content f)
      else raise (mk_exn OSError (os_error_msg p))
  end.

(** [open(p, 'w').write(text)], in a directory that can be written to. *)
Definition write_text (p : string) (text : string) : M unit :=
  w <- get_world ;;
  put_world (mk_world (<[p := plain_file text]> (fs w))
                      (environ w) (cwd w) (ext w)).

(** [os.unlink(p)] for a file that may be removed. *)
Definition os_unlink (p : string) : M unit :=
  w <- get_world ;;
  put_world (mk_world (delete p (fs w)) (environ w) (cwd w) (ext w)).

(** [with tempfile.NamedTemporaryFile(mode='w', delete=False,
    suffix='.txt') as f: f.write(text); name = f.name], when the temporary
    directory takes the file and the text can be encoded. *)
Definition named_temporary_file (text : string) : M string :=
  w <- get_world ;;
  let name := mktemp w in
  write_text name text ;;;
  ret name.

End Files.

(* ===================================================================== *)
(** ** class PromptBuilder *)
(* ===================================================================== *)

Module PromptBuilder.

Record t := mk { action_dir : string; rules_dir : string }.

Section PromptBuilder.
Context `{Host}.

Definition __init__ (action_dir : string) : t :=
  {| action_dir := action_dir; rules_dir := path_join action_dir "rules" |}.

Definition load_base_prompt (self : t) : M string :=
  let base_file := path_join (rules_dir self) "base.prompt" in
  ex <- path_exists base_file ;;
  if negb ex then
    raise (mk_exn FileNotFoundError
                  ("Base prompt file not found: " +:+ base_file))
  else
    content <- read_text base_file ;;
    w <- get_world ;;
    ret (expandvars (environ w) content).

Definition load_rule_prompt (self : t) (rule_name : string) : M string :=
  let rule_file := path_join (rules_dir self) (rule_name +:+ ".prompt") in
  ex <- path_exists rule_file ;;
  if negb ex then
    w <- get_world ;;
    let available := map path_stem (glob_prompts w (rules_dir self)) in
    raise (mk_exn FileNotFoundError
                  ("Rule file not found: " +:+ rule_file +:+
                   String PyStr.newline
                     ("Available rules: " +:+ PyStr.join ", " available)))
  else
    read_text rule_file.

Definition load_comment_prompt (self : t) : M string :=
  let comment_file := path_join (rules_dir self) "comment.prompt" in
  ex <- path_exists comment_file ;;
  if negb ex then
    raise (mk_exn FileNotFoundError
                  ("Comment prompt file not found: " +:+ comment_file))
  else
    read_text comment_file.

Definition build_full_prompt (base file_context rule_content comment : string)
  : string :=
  base +:+ "

## Analysis Scope
" +:+ file_context +:+ "

You have access to git commands to see changes:
- git diff --name-only origin/main..HEAD (or HEAD~1 HEAD)
- git diff origin/main..HEAD -- <filename>
- git show --name-only HEAD

Use these commands as needed for your analysis.

" +:+ rule_content +:+ "

" +:+ comment.

End PromptBuilder.
End PromptBuilder.

(* ===================================================================== *)
(** ** class CustomFileProcessor *)
(* ===================================================================== *)

Module CustomFileProcessor.
Section CustomFileProcessor.
Context `{Host}.

Definition resolve_path (file_path : string) : M string :=
  w <- get_world ;;
  let path :=
    if negb (path_is_absolute file_path) then
      let workspace := default (cwd w) (environ w !! "GITHUB_WORKSPACE") in
      path_join workspace file_path
    else file_path in
  ret (path_resolve w path).

(** The four checks [exists], [is_file], [os.access(_, R_OK)] and
    [stat().st_size > 1048576], each answered by the entry of the path. *)
Definition validate_file (file_path : string) : M bool :=
  w <- get_world ;;
  match fs w !! file_path with
  | None => ret false
  | Some f =>
      if negb (is_regular f) then ret false
      else if negb (readable f) then ret false
      else if 1048576 <? st_size f then ret false
      else ret true
  end.

Definition process_file (file_path : string) : M (string * string) :=
  resolved_path <- resolve_path file_path ;;
  ok <- validate_file resolved_path ;;
  if negb ok then
    raise (mk_exn ValueError
                  ("Custom file validation failed for " +:+ file_path))
  else
    content <- read_text resolved_path ;;
    let rule_name := path_stem resolved_path in
    ret (content, rule_name).

End CustomFileProcessor.
End CustomFileProcessor.

(* ===================================================================== *)
(** ** class AgentRunner *)
(* ===================================================================== *)

Module AgentRunner.

Record config := mk_config {
  cmd : string;
  env_key : string;
  default_model : string;
  args : list string
}.

(** The [provider_env_mapping] of [opencode] is read by logging code only. *)
Definition AGENT_CONFIG : gmap string config :=
  list_to_map
    [ ("cursor",
       mk_config "cursor-agent" "CURSOR_API_KEY" "gpt-5"
                 ["-p"; "--output-format"; "text"; "--force"]);
      ("claude",
       mk_config "claude" "ANTHROPIC_API_KEY" "claude-sonnet-4-20250514"
                 ["--output-format"; "text"]);
      ("gemini",
       mk_config "gemini" "GOOGLE_API_KEY" "pro"
                 ["--output-format"; "text"]);
      ("codex", mk_config "codex" "OPENAI_API_KEY" "gpt-5" []);
      ("amp", mk_config "amp" "AMP_API_KEY" "sonnet-4" ["-x"]);
      ("opencode",
       mk_config "opencode" "OPENCODE_API_KEY"
                 "anthropic/claude-sonnet-4-20250514" ["run"; "--quiet"]) ].

Section AgentRunner.
Context `{Host}.

Definition setup_agent_environment (agent : string) : M string :=
  match AGENT_CONFIG !! agent with
  | None => raise (mk_exn ValueError ("Unsupported agent: " +:+ agent))
  | Some config =>
      (if String.eqb agent "cursor" then
         w <- get_world ;;
         let current_path := default "" (environ w !! "PATH") in
         put_world (mk_world (fs w)
                      (<["PATH" := cursor_bin +:+ ":" +:+ current_path]>
                         (environ w))
                      (cwd w) (ext w))
       else ret tt) ;;;
      w <- get_world ;;
      ret (default (default_model config) (environ w !! "MODEL"))
  end.

(** Returns [os.environ.copy()]; the provider is looked at for logging. *)
Definition setup_opencode_environment (model : string)
  : M (gmap string string) :=
  w <- get_world ;; ret (environ w).

(** The [if agent == ...] chain at the head of the [try] block: the
    command line, and the value [temp_file_path] holds from there on.
    Nothing in the chain can raise, so the [finally] clause always sees
    the second component. *)
Definition build_command (agent : string) (config : config)
           (prompt model : string) (temp_file_path : string)
  : list string * option string :=
  let cmd_args := cmd config :: args config in
  if String.eqb agent "cursor" then
    (cmd_args ++ ["--model"; model], Some temp_file_path)
  else if String.eqb agent "claude" then
    (cmd_args ++ ["--model"; model; "-p"; prompt], None)
  else if String.eqb agent "gemini" then
    (cmd_args ++ ["-m"; model; "-p"; prompt], None)
  else if String.eqb agent "codex" then
    (cmd_args ++ ["-m"; model; prompt], None)
  else if String.eqb agent "amp" then
    (cmd_args ++ [prompt], None)
  else if String.eqb agent "opencode" then
    (cmd_args ++ ["--model"; model; prompt], None)
  else (cmd_args, Some temp_file_path).

(** [env = os.environ.copy()] and the two self-assignments of the key. *)
Definition agent_env (agent : string) (config : config) (model : string)
  : M (gmap string string) :=
  if String.eqb agent "opencode" then setup_opencode_environment model
  else
    w <- get_world ;;
    let env := environ w in
    match env !! env_key config with
    | Some v =>
        if String.eqb agent "cursor" then ret (<["CURSOR_API_KEY" := v]> env)
        else if String.eqb agent "amp" then ret (<["AMP_API_KEY" := v]> env)
        else ret env
    | None => ret env
    end.

(** [if temp_file_path:] *)
Definition path_truthy (p : option string) : bool :=
  match p with None => false | Some s => PyStr.truthy s end.

(** The body of the [try] block after the command line is built. *)
Definition run_agent (agent : string) (config : config) (model : string)
           (cmd_args : list string) (temp_file_path : option string)
  : M string :=
  env <- agent_env agent config model ;;
  result <-
    (if path_truthy temp_file_path && String.eqb agent "cursor" then
       f <- read_text (default "" temp_file_path) ;;
       subprocess_run_with cmd_args (Some f) (Some env) false
     else
       subprocess_run_with cmd_args None (Some env) false) ;;
  if returncode result =? 0 then
    ret (PyStr.strip (stdout result))
  else
    let error_msg :=
      "Agent execution failed with return code " +:+ pretty (returncode result) in
    let error_msg :=
      if PyStr.truthy (stderr result)
      then error_msg +:+ ": " +:+ stderr result else error_msg in
    ret ("Error: " +:+ error_msg).

(** The [finally] clause. *)
Definition cleanup (temp_file_path : option string) : M unit :=
  match temp_file_path with
  | Some p =>
      if PyStr.truthy p then
        ex <- path_exists p ;;
        if ex then os_unlink p else ret tt
      else ret tt
  | None => ret tt
  end.

Definition execute_agent (agent prompt model : string) : M string :=
  match AGENT_CONFIG !! agent with
  | None => ret ("Error: Unsupported agent: " +:+ agent)
  | Some config =>
      let cmd := cmd config in
      found <- try_except_class CalledProcessError
                 (subprocess_run ["which"; cmd] None true ;;; ret true)
                 (fun _ => ret false) ;;
      if negb found then
        ret ("Error: " +:+ cmd +:+
             " not found. Please ensure it's installed or set install-agent: true")
      else
        temp_file_path <- named_temporary_file prompt ;;
        let '(cmd_args, temp_file_path) :=
          build_command agent config prompt model temp_file_path in
        try_finally
          (try_except
             (run_agent agent config model cmd_args temp_file_path)
             (fun e =>
                if is_class TimeoutExpired e then
                  ret "Error: Agent execution timed out after 600 seconds"
                else
                  ret ("Error: Failed to execute " +:+ agent +:+ ": "
                       +:+ str_exn e)))
          (cleanup temp_file_path)
  end.

End AgentRunner.
End AgentRunner.

(* ===================================================================== *)
(** ** class ResultManager *)
(* ===================================================================== *)

Module ResultManager.

(** [self.results]: the [{"rule": .., "output": ..}] records in order. *)
Definition t := list (string * string).

Definition __init__ : t := [].

Definition NO_RESULTS_WARNING : string :=
  "⚠️ Warning: No analysis results were returned for this rule. This may indicate a processing error or timeout.".

(** The mark the warning text opens with: U+26A0 U+FE0F in UTF-8. *)
Definition warning_marker : string := "⚠️".

Definition add_result (self : t) (rule_name output : string) : t :=
  let output :=
    if negb (PyStr.truthy output) || (PyStr.len output <? 10)%nat then
      if negb (PyStr.truthy output) then NO_RESULTS_WARNING else output
    else output in
  self ++ [(rule_name, output)].

Section ResultManager.
Context `{Host}.

Definition save_results (self : t) (filename : string) : M unit :=
  write_text filename (json_dump self) ;;;
  log INFO "Results summary:".

End ResultManager.
End ResultManager.

(* ===================================================================== *)
(** ** parse_input_list and main *)
(* ===================================================================== *)

Section Main.
Context `{Host}.

Definition parse_input_list (input_str : string) : list string :=
  if negb (PyStr.truthy input_str) || String.eqb input_str "[]" then []
  else
    match yaml_safe_load input_str with
    | ParsedList items => items
    | _ =>
        match json_loads input_str with
        | ParsedList items => items
        | _ => PyStr.split_ws input_str
        end
    end.

(** What the loops of [main] share. *)
Record Run := mk_run {
  run_agent_name : string;
  run_model : string;
  prompt_builder : PromptBuilder.t;
  file_context : string;
  base_prompt : string;
  comment_prompt : string
}.

(** The [try] block of the rules loop. *)
Definition rule_body (r : Run) (result_manager : ResultManager.t)
           (rule : string) : M ResultManager.t :=
  rule_prompt <- PromptBuilder.load_rule_prompt (prompt_builder r) rule ;;
  let full_prompt :=
    PromptBuilder.build_full_prompt
      (base_prompt r) (file_context r) rule_prompt (comment_prompt r) in
  output <- AgentRunner.execute_agent
              (run_agent_name r) full_prompt (run_model r) ;;
  ret (ResultManager.add_result result_manager rule output).

(** One iteration of [for rule in rules_list]: the [continue] guard, the
    [try] block, [except FileNotFoundError] and [except Exception]. *)
Definition process_rule (r : Run) (result_manager : ResultManager.t)
           (rule : string) : M ResultManager.t :=
  if negb (PyStr.truthy rule) then ret result_manager
  else
    try_except
      (rule_body r result_manager rule)
      (fun e =>
         if is_class FileNotFoundError e then sys_exit 1
         else ret (ResultManager.add_result result_manager rule
                     ("Error: " +:+ str_exn e))).

(** One iteration of [for custom_file in custom_files_list]. *)
Definition process_custom_file (r : Run) (result_manager : ResultManager.t)
           (custom_file : string) : M ResultManager.t :=
  if negb (PyStr.truthy custom_file) then ret result_manager
  else
    try_except
      (cr <- CustomFileProcessor.process_file custom_file ;;
       let '(custom_content, rule_name) := cr in
       let full_prompt :=
         PromptBuilder.build_full_prompt
           (base_prompt r) (file_context r) custom_content (comment_prompt r) in
       output <- AgentRunner.execute_agent
                   (run_agent_name r) full_prompt (run_model r) ;;
       ret (ResultManager.add_result result_manager rule_name output))
      (fun e =>
         ret (ResultManager.add_result result_manager (path_stem custom_file)
                ("Error: " +:+ str_exn e))).

(** The [if args.custom_prompt:] block. *)
Definition process_custom_prompt (r : Run) (result_manager : ResultManager.t)
           (custom_prompt : string) : M ResultManager.t :=
  if negb (PyStr.truthy custom_prompt) then ret result_manager
  else
    log INFO "Executing custom prompt" ;;;
    try_except
      (let full_prompt :=
         PromptBuilder.build_full_prompt
           (base_prompt r) (file_context r) custom_prompt (comment_prompt r) in
       output <- AgentRunner.execute_agent
                   (run_agent_name r) full_prompt (run_model r) ;;
       let result_manager :=
         ResultManager.add_result result_manager "custom" output in
       log INFO "Completed custom prompt" ;;;
       ret result_manager)
      (fun e =>
         ret (ResultManager.add_result result_manager "custom"
                ("Error: " +:+ str_exn e))).

(** A [for] loop threading the result manager through its iterations. *)
Fixpoint for_each (body : ResultManager.t -> string -> M ResultManager.t)
         (items : list string) (result_manager : ResultManager.t)
  : M ResultManager.t :=
  match items with
  | [] => ret result_manager
  | x :: rest =>
      result_manager <- body result_manager x ;;
      for_each body rest result_manager
  end.

(** The input checks at the head of [main]. *)
Definition validate_inputs (args : Args) : M unit :=
  (if negb (PyStr.truthy (rules args))
      && negb (PyStr.truthy (custom_prompt args))
      && negb (PyStr.truthy (custom_files args))
   then
     log ERROR "No rules, custom prompt, or custom files provided" ;;;
     sys_exit 1
   else ret tt) ;;;
  if (5000 <? PyStr.len (custom_prompt args))%nat then sys_exit 1
  else ret tt.

(** [main] from "Initialize components" to its end. *)
Definition main_body (args : Args) (action_dir : string) : M unit :=
  let prompt_builder := PromptBuilder.__init__ action_dir in
  let result_manager := ResultManager.__init__ in
  model <- AgentRunner.setup_agent_environment (agent args) ;;
  file_context <- GitAnalyzer.get_file_context (scope args) ;;
  prompts <- try_except_class FileNotFoundError
               (base_prompt <- PromptBuilder.load_base_prompt prompt_builder ;;
                comment_prompt <-
                  PromptBuilder.load_comment_prompt prompt_builder ;;
                ret (base_prompt, comment_prompt))
               (fun _ => sys_exit 1) ;;
  let r := mk_run (agent args) model prompt_builder file_context
                  (fst prompts) (snd prompts) in
  let rules_list := parse_input_list (rules args) in
  result_manager <- for_each (process_rule r) rules_list result_manager ;;
  let custom_files_list := parse_input_list (custom_files args) in
  result_manager <-
    for_each (process_custom_file r) custom_files_list result_manager ;;
  result_manager <-
    process_custom_prompt r result_manager (custom_prompt args) ;;
  ResultManager.save_results result_manager "results.json" ;;;
  log INFO "AutoAgent Python Runner completed".

(** [os.environ.get('GITHUB_ACTION_PATH', dirname(dirname(__file__)))] *)
Definition action_dir_of (w : world ext_state) : string :=
  default script_parent_dir (environ w !! "GITHUB_ACTION_PATH").

(** [main] from its first log line on, for the namespace [args] that
    [parser.parse_args()] returned. *)
Definition main (args : Args) : M unit :=
  log INFO "AutoAgent Python Runner started" ;;;
  w <- get_world ;;
  let action_dir := action_dir_of w in
  validate_inputs args ;;;
  main_body args action_dir.

(** [main()] as the last line of the script calls it, for the command
    line [argv]: [args = parser.parse_args()], which may end the process,
    and then the run. *)
Definition main_of_argv (argv : list string) : M unit :=
  match parse_args argv with
  | Namespace args => main args
  | UsageError => sys_exit 2
  | HelpRequested => sys_exit 0
  end.

(** The status the interpreter exits with: 0 when [main] returns, the
    argument of [sys.exit], 1 after an uncaught exception. *)
Definition exit_status {A} (r : result A) : Z :=
  match r with
  | Ok _ => 0
  | Raise _ => 1
  | Exit code => code
  end.

(** The state [main] is in after its first log line. *)
Definition started (st : state ext_state) : state ext_state :=
  mk_state (st_world st)
           (st_trace st ++ [EvLog INFO "AutoAgent Python Runner started"]).

End Main.

(* ===================================================================== *)
(** ** Concrete hosts for the examples *)
(* ===================================================================== *)

Module Scenario.

Definition ok (out : string) : exn + CompletedProcess :=
  inr (mk_cp 0 out "").

Definition failed (rc : Z) : exn + CompletedProcess :=
  inr (mk_cp rc "" "fatal").

(** A machine without hidden state: a command's outcome depends on its
    command line only, and children leave the file system alone.  The
    YAML and JSON parsers see no list, so list inputs are split on blanks. *)
(** The command line of the script: up to five positional arguments, the
    missing ones replaced by their defaults; [-h] asks for the help text,
    any other option and a sixth argument are usage errors. *)
Definition positionals (argv : list string) : parse_result :=
  if existsb (fun a => String.eqb a "-h" || String.eqb a "--help") argv
  then HelpRequested
  else if existsb (String.prefix "-") argv then UsageError
  else
    match argv with
    | [] => Namespace (mk_args "[]" "" "cursor" "changed" "[]")
    | [r] => Namespace (mk_args r "" "cursor" "changed" "[]")
    | [r; p] => Namespace (mk_args r p "cursor" "changed" "[]")
    | [r; p; a] => Namespace (mk_args r p a "changed" "[]")
    | [r; p; a; s] => Namespace (mk_args r p a s "[]")
    | [r; p; a; s; f] => Namespace (mk_args r p a s f)
    | _ => UsageError
    end.

Definition scripted (script : list string -> exn + CompletedProcess) : Host :=
  {| ext_state := unit;
     spawn := fun cmd _ _ w => (script cmd, w);
     called_process_error_msg := fun _ rc =>
       "Command returned non-zero exit status " +:+ pretty rc;
     os_error_msg := fun p => "Cannot read " +:+ p;
     mktemp := fun _ => "/tmp/tmpq1w2e3.txt";
     yaml_safe_load := fun _ => ParsedOther;
     json_loads := fun _ => ParseError;
     parse_args := positionals;
     json_dump := fun rs =>
       PyStr.join ";" (map (fun r => fst r +:+ "=" +:+ snd r) rs);
     path_join := fun a b => a +:+ "/" +:+ b;
     path_stem := fun p => p;
     path_is_absolute := fun p => String.prefix "/" p;
     path_resolve := fun _ p => p;
     glob_prompts := fun _ _ => [];
     expandvars := fun _ s => s;
     cursor_bin := "/home/runner/.cursor/bin";
     script_parent_dir := "/action" |}.

Definition lines (l : list string) : string :=
  PyStr.join (String PyStr.newline EmptyString) l.

(** No [main] ref and no [origin/main]; the head commit is an ordinary
    commit that touched [a.py] and [b.py]. *)
Definition plain_commit (cmd : list string) : exn + CompletedProcess :=
  match cmd with
  | ["git"; "fetch"; "origin"; "main:main"] => failed 128
  | ["git"; "merge-base"; "HEAD"; "main"] => failed 128
  | ["git"; "diff"; "--name-only"; "origin/main...HEAD"] => failed 128
  | ["git"; "diff"; "--name-only"; "origin/main..HEAD"] => failed 128
  | ["git"; "show"; "--format=%P"; "-s"; "HEAD"] => ok "4f2a9c1"
  | ["git"; "diff"; "--name-only"; "HEAD~1"; "HEAD"] =>
      ok (lines ["a.py"; "b.py"; ""])
  | "which" :: _ => ok "/usr/bin/agent"
  | _ => ok "analysis finished without findings"
  end.

(** A branch with a known base: the three-dot diff reports two files. *)
Definition feature_branch (cmd : list string) : exn + CompletedProcess :=
  match cmd with
  | ["git"; "fetch"; "origin"; "main:main"] => failed 1
  | ["git"; "merge-base"; "HEAD"; "main"] => failed 1
  | ["git"; "diff"; "--name-only"; "origin/main...HEAD"] =>
      ok (lines ["a.py"; "b.py"; ""])
  | "which" :: _ => ok "/usr/bin/agent"
  | _ => ok "analysis finished without findings"
  end.

(** The branch is level with main: every query succeeds and prints
    nothing. *)
Definition up_to_date (cmd : list string) : exn + CompletedProcess :=
  match cmd with
  | ["git"; "merge-base"; "HEAD"; "main"] => ok "4f2a9c1"
  | _ => ok ""
  end.

(** No git at all: starting any child raises. *)
Definition no_git (cmd : list string) : exn + CompletedProcess :=
  inl (mk_exn FileNotFoundError "No such file or directory: 'git'").

(** The agent is installed, but the lookup of its executable cannot be
    started. *)
Definition which_denied (cmd : list string) : exn + CompletedProcess :=
  match cmd with
  | "which" :: _ => inl (mk_exn OSError "Permission denied: 'which'")
  | _ => feature_branch cmd
  end.

Definition action_files : gmap string file :=
  list_to_map
    [ ("/action/rules/base.prompt", plain_file "You are a reviewer.");
      ("/action/rules/comment.prompt", plain_file "Answer in markdown.");
      ("/action/rules/security.prompt", plain_file "Look for injection.");
      ("/action/rules/performance.prompt", plain_file "Look for slow loops.") ].

Definition world0 : world unit :=
  mk_world action_files ∅ "/work" tt.

Definition empty_world : world unit := mk_world ∅ ∅ "/work" tt.

Definition start (w : world unit) : state unit := mk_state w [].

(** The values [main] hands to its loops in these runs. *)
Definition run0 : Run :=
  mk_run "cursor" "gpt-5" (PromptBuilder.mk "/action" "/action/rules")
         "Analyze the entire codebase in this repository."
         "You are a reviewer." "Answer in markdown.".

(** The agent's executable is not installed: [which] exits with 1. *)
Definition agent_missing (cmd : list string) : exn + CompletedProcess :=
  match cmd with
  | "which" :: _ => failed 1
  | _ => feature_branch cmd
  end.

(** The agent runs into the time limit of [subprocess.run]. *)
Definition agent_times_out (cmd : list string) : exn + CompletedProcess :=
  match cmd with
  | "codex" :: _ =>
      inl (mk_exn TimeoutExpired "Command timed out after 600 seconds")
  | _ => feature_branch cmd
  end.

(** The agent gives up with status 3 and a message on standard error. *)
Definition agent_out_of_quota (cmd : list string) : exn + CompletedProcess :=
  match cmd with
  | "codex" :: _ => inr (mk_cp 3 "" "quota exceeded")
  | _ => feature_branch cmd
  end.

(** A pull-request run with a model override. *)
Definition pr_world : world unit :=
  mk_world action_files
           (list_to_map [("GITHUB_EVENT_NUMBER", "42");
                         ("GITHUB_REPOSITORY", "octo/demo");
                         ("MODEL", "sonnet-4")])
           "/work" tt.

(** [n] copies of the letter x. *)
Fixpoint xs (n : nat) : string :=
  match n with O => EmptyString | S n' => String "x" (xs n') end.

(** U+00A0 NO-BREAK SPACE and U+3000 IDEOGRAPHIC SPACE. *)
Definition nbsp : string :=
  String (ascii_of_nat 194) (String (ascii_of_nat 160) EmptyString).

Definition ideographic_space : string :=
  String (ascii_of_nat 227)
         (String (ascii_of_nat 128) (String (ascii_of_nat 128) EmptyString)).

(** [n] copies of the letter e with an acute accent, U+00E9: two bytes
    each. *)
Fixpoint accented (n : nat) : string :=
  match n with O => EmptyString | S n' => "é" +:+ accented n' end.

End Scenario.

(* ===================================================================== *)
(** ** Vocabulary of the statements *)
(* ===================================================================== *)

(** A path as the resolver reports it: not empty, and neither its first
    nor its last character is whitespace. *)
Definition clean (f : string) : Prop :=
  PyStr.truthy f = true /\
  PyStr.space_len f = 0%nat /\
  PyStr.ends_with_space f = false.

(** [c in s] for one character. *)
Fixpoint has_char (c : ascii) (s : string) : bool :=
  match s with
  | EmptyString => false
  | String d s' => Ascii.eqb d c || has_char c s'
  end.

Definition space : ascii := ascii_of_nat 32.

(** Some [subprocess.run] call of the trace started the program [prog]. *)
Definition ran_program (prog : string) (tr : list event) : bool :=
  existsb (fun ev =>
             match ev with
             | EvRun (p :: _) _ => String.eqb p prog
             | _ => false
             end) tr.

(** What a strategy that returns hands back: the name lines of some
    command output. *)
Definition name_lines (files : list string) : Prop :=
  exists out, files = parse_name_lines out.

(** The six strategies in the order [get_changed_files] lists them. *)
Definition six_strategies `{Host} : list (M (list string)) :=
  [ GitAnalyzer._try_merge_base;
    GitAnalyzer._try_three_dot_syntax;
    GitAnalyzer._try_two_dot_syntax;
    GitAnalyzer._try_github_api;
    GitAnalyzer._try_merge_commit;
    GitAnalyzer._try_single_commit ].

(** The five strategies before the terminal one. *)
Definition first_five `{Host} : list (M (list string)) :=
  [ GitAnalyzer._try_merge_base;
    GitAnalyzer._try_three_dot_syntax;
    GitAnalyzer._try_two_dot_syntax;
    GitAnalyzer._try_github_api;
    GitAnalyzer._try_merge_commit ].

Section Vocabulary.
Context `{Host}.

(** [m] never calls [sys.exit], and every value it returns satisfies [P]. *)
Definition safe {A} (P : A -> Prop) (m : M A) : Prop :=
  forall st,
    match fst (m st) with
    | Ok a => P a
    | Raise _ => True
    | Exit _ => False
    end.

(** [m] returns a value: it neither raises nor exits. *)
Definition total {A} (P : A -> Prop) (m : M A) : Prop :=
  forall st, exists a st', m st = (Ok a, st') /\ P a.

(** [m] leaves the file system as it found it. *)
Definition keeps_fs {A} (m : M A) : Prop :=
  forall st, fs (st_world (snd (m st))) = fs (st_world st).

(** [m] only adds events at the end of the trace. *)
Definition extends_trace {A} (m : M A) : Prop :=
  forall st, exists evs, st_trace (snd (m st)) = st_trace st ++ evs.

(** [m], whenever it is started, first logs [msg] at debug level. *)
Definition logs_entry {A} (m : M A) (msg : string) : Prop :=
  forall st, exists evs,
    st_trace (snd (m st)) = st_trace st ++ EvLog DEBUG msg :: evs.

(** The strategy, started in [st], made the loop go on to the next one
    from [st']: it raised, or it returned the empty list. *)
Inductive falls_through (s : M (list string))
          (st st' : state ext_state) : Prop :=
| ft_raise (e : exn) : s st = (Raise e, st') -> falls_through s st st'
| ft_empty : s st = (Ok [], st') -> falls_through s st st'.

(** Each strategy of the list, started where the one before it stopped,
    fell through. *)
Inductive all_fall_through :
  list (M (list string)) -> state ext_state -> state ext_state -> Prop :=
| aft_nil st : all_fall_through [] st st
| aft_cons s ss st st' st'' :
    falls_through s st st' ->
    all_fall_through ss st' st'' ->
    all_fall_through (s :: ss) st st''.

(** The state in which the first strategy starts. *)
Definition entered (st : state ext_state) : state ext_state :=
  snd (log INFO "Detecting changed files using multiple strategies" st).

(** The state in which the loop of [get_changed_files] ends when no
    strategy won. *)
Definition gave_up (st : state ext_state) : state ext_state :=
  snd (log WARNING "No changed files detected with any strategy" st).

End Vocabulary.

(** What [git diff --name-only] prints for a list of paths: one per line,
    each line closed by a newline. *)
Fixpoint name_only_output (files : list string) : string :=
  match files with
  | [] => EmptyString
  | f :: rest => f +:+ String PyStr.newline (name_only_output rest)
  end.

(** No character of [s] is whitespace: no whitespace character begins
    at any place of [s]. *)
Fixpoint no_blank (s : string) : bool :=
  match s with
  | EmptyString => true
  | String _ s' => (PyStr.space_len s =? 0)%nat && no_blank s'
  end.

(** The same of [cur] when [s] follows it: no whitespace character begins
    inside [cur], not even one that ends in [s]. *)
Fixpoint no_blank_before (cur s : string) : Prop :=
  match cur with
  | EmptyString => True
  | String _ cur' =>
      PyStr.space_len (cur +:+ s) = 0%nat /\ no_blank_before cur' s
  end.

(** A list item as the fallback of [parse_input_list] yields it. *)
Definition word (w : string) : Prop :=
  PyStr.truthy w = true /\ no_blank w = true.

(** The records [rm'] are the records [rm] and one more, under [name],
    with a non-empty output. *)
Definition one_more (rm : ResultManager.t) (name : string)
           (rm' : ResultManager.t) : Prop :=
  exists out, rm' = rm ++ [(name, out)] /\ out <> "".

(** The path names a regular, readable file of at most 1 MiB. *)
Definition acceptable {X} (w : world X) (p : string) : Prop :=
  exists f,
    fs w !! p = Some f /\ is_regular f = true /\ readable f = true /\
    st_size f <= 1048576.

Section OutcomeVocabulary.
Context `{Host}.

(** [m] calls [sys.exit] with no other status than [code]. *)
Definition exits_only {A} (code : Z) (m : M A) : Prop :=
  forall st c, fst (m st) = Exit c -> c = code.

(** [m] lets no exception out. *)
Definition never_raises {A} (m : M A) : Prop :=
  forall st e, fst (m st) <> Raise e.

(** Every event [m] adds to the trace satisfies [P]. *)
Definition adds_only {A} (P : event -> Prop) (m : M A) : Prop :=
  forall st, exists evs,
    st_trace (snd (m st)) = st_trace st ++ evs /\ Forall P evs.

(** The event is no process start, or starts [git] or [gh]. *)
Definition git_or_gh (ev : event) : Prop :=
  match ev with
  | EvRun cmd _ => exists rest, cmd = "git" :: rest \/ cmd = "gh" :: rest
  | EvLog _ _ => True
  end.

End OutcomeVocabulary.

(* ===================================================================== *)
(** ** Properties of the string primitives *)
(* ===================================================================== *)

Section StringFacts.

Ltac split_ifs :=
  repeat match goal with
         | |- context [if ?b then _ else _] => destruct b eqn:?
         end.


Lemma space_len_le s : (PyStr.space_len s <= String.length s)%nat.
Proof.
  destruct s as [|c1 [|c2 [|c3 s]]]; simpl; split_ifs; simpl; lia.
Qed.

(** A whitespace character at the front of [s] is still there when [s] is
    extended. *)
Lemma space_len_app s t k :
  PyStr.space_len s = S k -> PyStr.space_len (s +:+ t) = S k.
Proof.
  destruct s as [|c1 [|c2 [|c3 s]]]; simpl; split_ifs; done.
Qed.

Lemma space_len_prefix s t :
  PyStr.space_len (s +:+ t) = 0%nat -> PyStr.space_len s = 0%nat.
Proof.
  intros H0. destruct (PyStr.space_len s) as [|k] eqn:E; [done|].
  by rewrite (space_len_app _ t _ E) in H0.
Qed.


Lemma lstrip_go_drop s k :
  PyStr.lstrip_go k s = PyStr.lstrip (PyStr.drop k s).
Proof.
  revert k. induction s as [|c s IH]; intros [|k]; try done. apply IH.
Qed.

Lemma lstrip_fixed s : PyStr.space_len s = 0%nat -> PyStr.lstrip s = s.
Proof.
  intros E. destruct s as [|c s]; [done|].
  unfold PyStr.lstrip. cbn [PyStr.lstrip_go]. by rewrite E.
Qed.

Lemma lstrip_step s k :
  PyStr.space_len s = S k -> PyStr.lstrip s = PyStr.lstrip (PyStr.drop (S k) s).
Proof.
  intros E. destruct s as [|c s]; [done|].
  unfold PyStr.lstrip at 1. cbn [PyStr.lstrip_go PyStr.drop]. rewrite E.
  apply lstrip_go_drop.
Qed.


Lemma drop_length n s :
  String.length (PyStr.drop n s) = (String.length s - n)%nat.
Proof.
  revert n. induction s as [|c s IH]; intros [|n]; simpl; try done.
Qed.








(** No field of [split_on sep] contains the separator. *)
Lemma split_on_no_sep sep s :
  Forall (fun f => has_char sep f = false) (PyStr.split_on sep s).
Proof.
  induction s as [|a s IH]; simpl.
  - by constructor.
  - destruct (Ascii.eqb a sep) eqn:E.
    + by constructor.
    + destruct (PyStr.split_on sep s) as [|f fs'].
      * constructor; [|constructor]. simpl. by rewrite E.
      * inversion IH; subst. constructor; [|done]. simpl. by rewrite E.
Qed.

Lemma lstrip_go_no_char c s k :
  has_char c s = false -> has_char c (PyStr.lstrip_go k s) = false.
Proof.
  revert k. induction s as [|a s IH]; intros k; [done|].
  intros Hc. pose proof Hc as Hc'. simpl in Hc'.
  apply orb_false_iff in Hc' as [Ha Hs].
  destruct k as [|k]; cbn [PyStr.lstrip_go]; [|by apply IH].
  destruct (PyStr.space_len (String a s)); [exact Hc | by apply IH].
Qed.

Lemma lstrip_no_char c s :
  has_char c s = false -> has_char c (PyStr.lstrip s) = false.
Proof. apply lstrip_go_no_char. Qed.

Lemma rstrip_no_char c s :
  has_char c s = false -> has_char c (PyStr.rstrip s) = false.
Proof.
  induction s as [|a s IH]; [done|].
  intros Hc. simpl in Hc. apply orb_false_iff in Hc as [Ha Hs].
  cbn [PyStr.rstrip].
  destruct (PyStr.is_empty (PyStr.lstrip (String a s))); [done|].
  simpl. rewrite Ha. by apply IH.
Qed.

Lemma parse_name_lines_one_line out :
  Forall (fun f => has_char PyStr.newline f = false) (parse_name_lines out).
Proof.
  unfold parse_name_lines. apply Forall_forall. intros x Hx.
  apply list_elem_of_In in Hx.
  apply in_map_iff in Hx as (f & <- & Hf).
  apply list_elem_of_In, list_elem_of_filter in Hf as [_ Hf].
  pose proof (split_on_no_sep PyStr.newline out) as Hall.
  rewrite Forall_forall in Hall.
  apply rstrip_no_char, lstrip_no_char, Hall. exact Hf.
Qed.

Lemma split_on_whole sep x :
  has_char sep x = false -> PyStr.split_on sep x = [x].
Proof.
  induction x as [|a x IH]; simpl; [done|].
  intros Hc. apply orb_false_iff in Hc as [Ha Hx].
  rewrite Ha, (IH Hx). reflexivity.
Qed.

Lemma split_on_field sep x rest :
  has_char sep x = false ->
  PyStr.split_on sep (x +:+ String sep rest) = x :: PyStr.split_on sep rest.
Proof.
  induction x as [|a x IH]; simpl.
  - intros _. by rewrite Ascii.eqb_refl.
  - intros Hc. apply orb_false_iff in Hc as [Ha Hx].
    rewrite Ha, (IH Hx). reflexivity.
Qed.

(** Paths without blanks can be read back from the joined text. *)
Lemma split_join_space l :
  l <> [] ->
  Forall (fun f => has_char space f = false) l ->
  PyStr.split_on space (PyStr.join " " l) = l.
Proof.
  intros Hne Hall. induction Hall as [|x l Hx Hl IH]; [done|].
  destruct l as [|y l]; [by apply split_on_whole|].
  change (PyStr.join " " (x :: y :: l))
    with (x +:+ String space (PyStr.join " " (y :: l))).
  rewrite (split_on_field _ _ _ Hx), IH; done.
Qed.

Lemma has_char_app c s t :
  has_char c (s +:+ t) = has_char c s || has_char c t.
Proof.
  induction s as [|a s IH]; simpl; [done|]. by rewrite IH, orb_assoc.
Qed.

Lemma join_no_char c sep l :
  has_char c sep = false ->
  Forall (fun f => has_char c f = false) l ->
  has_char c (PyStr.join sep l) = false.
Proof.
  intros Hsep. induction 1 as [|x l Hx Hl IH]; [done|].
  destruct l as [|y l]; [exact Hx|].
  change (PyStr.join sep (x :: y :: l))
    with (x +:+ sep +:+ PyStr.join sep (y :: l)).
  by rewrite !has_char_app, Hx, Hsep, IH.
Qed.

End StringFacts.

(* ===================================================================== *)
(** ** Properties of the interpreter *)
(* ===================================================================== *)

Create HintDb py_safe.
Create HintDb py_trace.

Section MonadFacts.
Context `{Host}.

Lemma safe_ret {A} (P : A -> Prop) a : P a -> safe P (ret a).
Proof. intros Ha st. exact Ha. Qed.

Lemma safe_raise {A} (P : A -> Prop) e : safe P (raise e).
Proof. intros st. exact I. Qed.

Lemma safe_bind {A B} (Q : A -> Prop) (P : B -> Prop) m k :
  safe Q m -> (forall a, Q a -> safe P (k a)) -> safe P (bind m k).
Proof.
  intros Hm Hk st. specialize (Hm st). unfold bind.
  destruct (m st) as [[a|e|c] st']; simpl in *; [|done|done].
  exact (Hk a Hm st').
Qed.

Lemma safe_emit ev : safe (fun _ => True) (emit ev).
Proof. intros st. exact I. Qed.

Lemma safe_log lvl msg : safe (fun _ => True) (log lvl msg).
Proof. apply safe_emit. Qed.

Lemma safe_get_world : safe (fun _ => True) get_world.
Proof. intros st. exact I. Qed.

Lemma safe_put_world w : safe (fun _ => True) (put_world w).
Proof. intros st. exact I. Qed.

Lemma safe_subprocess_run_with cmd stdin env check :
  safe (fun _ => True) (subprocess_run_with cmd stdin env check).
Proof.
  intros st. unfold subprocess_run_with, bind, emit, get_world. simpl.
  destruct (spawn cmd stdin env (st_world st)) as [[e|cp] w']; simpl; [done|].
  destruct (check && negb (returncode cp =? 0)); done.
Qed.

Lemma safe_subprocess_run cmd stdin check :
  safe (fun _ => True) (subprocess_run cmd stdin check).
Proof. apply safe_subprocess_run_with. Qed.

Lemma safe_environ_get name : safe (fun _ => True) (environ_get name).
Proof. intros st. exact I. Qed.

(** A total computation started anywhere returns. *)
Lemma total_bind {A B} (Q : A -> Prop) (P : B -> Prop) m k :
  total Q m -> (forall a, Q a -> total P (k a)) -> total P (bind m k).
Proof.
  intros Hm Hk st. destruct (Hm st) as (a & st' & E & Ha).
  destruct (Hk a Ha st') as (b & st'' & E' & Hb).
  exists b, st''. unfold bind. by rewrite E.
Qed.

Lemma total_log lvl msg : total (fun _ => True) (log lvl msg).
Proof. intros st. by eexists _, _. Qed.

Lemma extends_trace_ret {A} (a : A) : extends_trace (ret a).
Proof. intros st. exists []. simpl. by rewrite app_nil_r. Qed.

Lemma extends_trace_raise {A} e : extends_trace (raise (A:=A) e).
Proof. intros st. exists []. simpl. by rewrite app_nil_r. Qed.

Lemma extends_trace_bind {A B} (m : M A) (k : A -> M B) :
  extends_trace m -> (forall a, extends_trace (k a)) ->
  extends_trace (bind m k).
Proof.
  intros Hm Hk st. destruct (Hm st) as [evs E]. unfold bind.
  destruct (m st) as [[a|e|c] st1]; simpl in *; eauto.
  destruct (Hk a st1) as [evs' E']. exists (evs ++ evs').
  by rewrite E', E, app_assoc.
Qed.

Lemma extends_trace_emit ev : extends_trace (emit ev).
Proof. intros st. by exists [ev]. Qed.

Lemma extends_trace_log lvl msg : extends_trace (log lvl msg).
Proof. apply extends_trace_emit. Qed.

Lemma extends_trace_get_world : extends_trace get_world.
Proof. intros st. exists []. simpl. by rewrite app_nil_r. Qed.

Lemma extends_trace_put_world w : extends_trace (put_world w).
Proof. intros st. exists []. simpl. by rewrite app_nil_r. Qed.

Lemma extends_trace_environ_get name : extends_trace (environ_get name).
Proof. intros st. exists []. simpl. by rewrite app_nil_r. Qed.

Lemma extends_trace_subprocess_run_with cmd stdin env check :
  extends_trace (subprocess_run_with cmd stdin env check).
Proof.
  intros st. exists [EvRun cmd stdin].
  unfold subprocess_run_with, bind, emit, get_world, put_world. simpl.
  destruct (spawn cmd stdin env (st_world st)) as [[e|cp] w']; simpl; [done|].
  by destruct (check && negb (returncode cp =? 0)).
Qed.

Lemma extends_trace_subprocess_run cmd stdin check :
  extends_trace (subprocess_run cmd stdin check).
Proof. apply extends_trace_subprocess_run_with. Qed.

Lemma logs_entry_intro {A} msg (rest : M A) :
  extends_trace rest -> logs_entry (log DEBUG msg ;;; rest) msg.
Proof.
  intros Hrest st. unfold bind, log, emit. simpl.
  destruct (Hrest (mk_state (st_world st)
                            (st_trace st ++ [EvLog DEBUG msg]))) as [evs E].
  exists evs. rewrite E. simpl. by rewrite <- app_assoc.
Qed.

End MonadFacts.

#[export] Hint Resolve safe_raise safe_log safe_emit safe_get_world
  safe_put_world safe_subprocess_run safe_subprocess_run_with
  safe_environ_get : py_safe.

#[export] Hint Resolve extends_trace_raise extends_trace_log
  extends_trace_emit extends_trace_get_world extends_trace_put_world
  extends_trace_subprocess_run extends_trace_subprocess_run_with
  extends_trace_environ_get extends_trace_ret : py_trace.

(** Walks through a computation built from [bind], [if] and the
    primitives above. *)
Ltac trace_step :=
  lazymatch goal with
  | |- extends_trace (bind _ _) =>
      apply extends_trace_bind; [solve [eauto with py_trace] | intros ?]
  | |- extends_trace (if ?b then _ else _) => destruct b
  | |- extends_trace _ => solve [eauto with py_trace]
  end.

(** Peels one [bind] whose first computation returns nothing of interest. *)
Ltac safe_step :=
  lazymatch goal with
  | |- safe _ (bind _ _) =>
      eapply safe_bind; [solve [eauto with py_safe] | intros ? _]
  | |- safe _ (ret _) => apply safe_ret
  | |- safe _ (raise _) => apply safe_raise
  | |- safe _ (if ?b then _ else _) => destruct b
  | |- safe _ (match ?o with Some _ => _ | None => _ end) => destruct o
  end.

(* ===================================================================== *)
(** ** GitAnalyzer: the fallback chain *)
(* ===================================================================== *)

Section ChainFacts.
Context `{Host}.
Import GitAnalyzer.

Lemma safe_try_merge_base : safe name_lines _try_merge_base.
Proof. unfold _try_merge_base. repeat safe_step. by eexists. Qed.

Lemma safe_try_three_dot_syntax : safe name_lines _try_three_dot_syntax.
Proof. unfold _try_three_dot_syntax. repeat safe_step. by eexists. Qed.

Lemma safe_try_two_dot_syntax : safe name_lines _try_two_dot_syntax.
Proof. unfold _try_two_dot_syntax. repeat safe_step. by eexists. Qed.

Lemma safe_try_github_api : safe name_lines _try_github_api.
Proof. unfold _try_github_api. repeat safe_step. by eexists. Qed.

Lemma safe_try_merge_commit : safe name_lines _try_merge_commit.
Proof. unfold _try_merge_commit. repeat safe_step. by eexists. Qed.

Lemma safe_try_single_commit : safe name_lines _try_single_commit.
Proof. unfold _try_single_commit. repeat safe_step. by eexists. Qed.

Lemma safe_strategies : Forall (safe name_lines) strategies.
Proof.
  unfold strategies.
  repeat constructor;
    auto using safe_try_merge_base, safe_try_three_dot_syntax,
      safe_try_two_dot_syntax, safe_try_github_api,
      safe_try_merge_commit, safe_try_single_commit.
Qed.

(** X25. A strategy that is started leaves its entry line in the trace, so
    a state in which the trace has not grown is one in which it did not
    run. *)
Lemma strategies_log_entry :
  Forall2 logs_entry six_strategies
    [ "Strategy 1: Using merge-base with explicit calculation";
      "Strategy 2: Trying git diff --name-only origin/main...HEAD";
      "Strategy 3: Trying git diff --name-only origin/main..HEAD";
      "Strategy 4: Using GitHub API to get changed files";
      "Strategy 5: Checking if HEAD is a merge commit";
      "Strategy 6: Final fallback - single commit diff" ].
Proof.
  unfold six_strategies, _try_merge_base, _try_three_dot_syntax,
    _try_two_dot_syntax, _try_github_api, _try_merge_commit,
    _try_single_commit.
  repeat (constructor; [apply logs_entry_intro; repeat trace_step|]).
  constructor.
Qed.

(** One turn of the loop, when the strategy falls through. *)
Lemma try_each_skip s ss st st' :
  falls_through s st st' -> try_each (s :: ss) st = try_each ss st'.
Proof.
  intros [e E|E]; simpl; unfold bind, try_except; rewrite E; reflexivity.
Qed.

(** One turn of the loop, when the strategy wins. *)
Lemma try_each_hit s ss st files st' :
  s st = (Ok files, st') -> files <> [] ->
  try_each (s :: ss) st = (Ok files, st').
Proof.
  intros E Hne. simpl. unfold bind, try_except. rewrite E.
  destruct files; [done|reflexivity].
Qed.

Lemma try_each_prefix pre rest st st' :
  all_fall_through pre st st' ->
  try_each (pre ++ rest) st = try_each rest st'.
Proof.
  induction 1 as [|s ss st st1 st2 Hs _ IH]; [reflexivity|].
  simpl app. rewrite (try_each_skip _ _ _ _ Hs). exact IH.
Qed.

(** The loop returns the empty list only after every strategy fell
    through. *)
Lemma try_each_empty ss st :
  fst (try_each ss st) = Ok [] ->
  exists st', all_fall_through ss st st'.
Proof.
  revert st. induction ss as [|s ss IH]; intros st.
  - intros _. eexists. constructor.
  - simpl. unfold bind, try_except.
    destruct (s st) as [[files|e|c] st1] eqn:E; simpl.
    + destruct files as [|f files]; simpl.
      * intros Hr. destruct (IH _ Hr) as [st' Hall].
        exists st'. econstructor; [by apply ft_empty | exact Hall].
      * discriminate.
    + intros Hr. destruct (IH _ Hr) as [st' Hall].
      exists st'. econstructor; [by eapply ft_raise | exact Hall].
    + discriminate.
Qed.

(** Strategies that never exit make the loop return, and what it returns
    is the empty list or what one of them returned. *)
Lemma try_each_total (P : list string -> Prop) ss :
  P [] -> Forall (safe P) ss -> total P (try_each ss).
Proof.
  intros Hnil. induction 1 as [|s ss Hs _ IH]; intros st.
  - by eexists _, _.
  - simpl. unfold bind, try_except. specialize (Hs st).
    destruct (s st) as [[files|e|c] st1]; simpl in *; [| |done].
    + destruct files as [|f files]; simpl; [apply IH|]. by eexists _, _.
    + apply IH.
Qed.

(** Every run of the loop is of one of two kinds: some strategy wins after
    all strategies before it fell through, or all of them fall through. *)
Lemma try_each_cases ss :
  Forall (safe (fun _ => True)) ss ->
  forall st,
    (exists pre s post st1 files st2,
        ss = pre ++ s :: post /\
        all_fall_through pre st st1 /\
        s st1 = (Ok files, st2) /\
        files <> [] /\
        try_each ss st = (Ok files, st2)) \/
    (exists st',
        all_fall_through ss st st' /\
        try_each ss st = (Ok [], gave_up st')).
Proof.
  induction 1 as [|s ss Hs _ IH]; intros st.
  - right. exists st. split; [constructor | reflexivity].
  - specialize (Hs st).
    destruct (s st) as [[files|e|c] st1] eqn:E; simpl in Hs; [| |done].
    + destruct files as [|f files].
      * pose proof (ft_empty s st st1 E) as Hft.
        rewrite (try_each_skip _ ss _ _ Hft).
        destruct (IH st1)
          as [(pre & s' & post & sa & fl & sb & -> & Hpre & Hs' & Hne & R)
             |(st' & Hall & R)].
        -- left. exists (s :: pre), s', post, sa, fl, sb.
           repeat split; try done. by econstructor.
        -- right. exists st'. split; [by econstructor | done].
      * left. exists [], s, ss, st, (f :: files), st1.
        repeat split; try done; [constructor|].
        by apply try_each_hit.
    + pose proof (ft_raise s st st1 e E) as Hft.
      rewrite (try_each_skip _ ss _ _ Hft).
      destruct (IH st1)
        as [(pre & s' & post & sa & fl & sb & -> & Hpre & Hs' & Hne & R)
           |(st' & Hall & R)].
      * left. exists (s :: pre), s', post, sa, fl, sb.
        repeat split; try done. by econstructor.
      * right. exists st'. split; [by econstructor | done].
Qed.

Lemma name_lines_nil : name_lines [].
Proof. exists EmptyString. reflexivity. Qed.

Lemma get_changed_files_total_lines : total name_lines get_changed_files.
Proof.
  unfold get_changed_files.
  eapply total_bind; [apply total_log|]. intros _ _.
  apply try_each_total; [apply name_lines_nil | apply safe_strategies].
Qed.

(** X24. Every run of [get_changed_files] is of one of two kinds: some
    strategy returns a non-empty list after all strategies before it fell
    through, and that list is the result; or all six fall through and the
    result is the empty list. *)
Lemma get_changed_files_cases st :
  (exists pre s post st1 files st2,
      six_strategies = pre ++ s :: post /\
      all_fall_through pre (entered st) st1 /\
      s st1 = (Ok files, st2) /\
      files <> [] /\
      get_changed_files st = (Ok files, st2)) \/
  (exists st6,
      all_fall_through six_strategies (entered st) st6 /\
      get_changed_files st = (Ok [], gave_up st6)).
Proof.
  apply (try_each_cases strategies).
  eapply Forall_impl; [apply safe_strategies|].
  intros s Hs st0. specialize (Hs st0). by destruct (fst (s st0)).
Qed.

Lemma get_changed_files_entered st :
  get_changed_files st = try_each strategies (entered st).
Proof. reflexivity. Qed.

End ChainFacts.

Section ChainClaims.
Context `{Host}.
Import GitAnalyzer.

(** C1. The strategies are tried in the order merge-base, three-dot,
    two-dot, hosting-platform API, merge-commit, single-previous-commit.
    Split that list at any strategy [s]: when every strategy before [s],
    each started where the previous one stopped, raised or returned the
    empty list, [s] is started next; when [s] then returns a non-empty
    list, [get_changed_files] returns that list and stops in the very
    state [s] left: by [strategies_log_entry] a strategy that is started
    adds to the trace, so nothing after [s] was run. *)
Theorem first_successful_strategy_wins pre s post st st1 files st2 :
  six_strategies = pre ++ s :: post ->
  all_fall_through pre (entered st) st1 ->
  s st1 = (Ok files, st2) ->
  files <> [] ->
  get_changed_files st = (Ok files, st2).
Proof.
  intros Hsplit Hpre Hs Hne.
  rewrite get_changed_files_entered.
  change strategies with six_strategies. rewrite Hsplit.
  rewrite (try_each_prefix _ _ _ _ Hpre).
  by apply try_each_hit.
Qed.

(** C2. [get_changed_files] always returns a list.  When all six
    strategies raise or return nothing it returns the empty list; when the
    first five do and the terminal single-commit diff returns, its result
    is returned, empty or not. *)
Theorem get_changed_files_never_raises st :
  (exists files st', get_changed_files st = (Ok files, st')) /\
  (forall st6,
      all_fall_through six_strategies (entered st) st6 ->
      get_changed_files st = (Ok [], gave_up st6)) /\
  (forall st5 files st6,
      all_fall_through first_five (entered st) st5 ->
      _try_single_commit st5 = (Ok files, st6) ->
      fst (get_changed_files st) = Ok files).
Proof.
  split; [|split].
  - destruct (get_changed_files_total_lines st) as (files & st' & E & _).
    by exists files, st'.
  - intros st6 Hall. rewrite get_changed_files_entered.
    change strategies with (six_strategies ++ []).
    by rewrite (try_each_prefix _ _ _ _ Hall).
  - intros st5 files st6 Hall Hlast. rewrite get_changed_files_entered.
    change strategies with (first_five ++ [_try_single_commit]).
    rewrite (try_each_prefix _ _ _ _ Hall).
    destruct files as [|f files].
    + by rewrite (try_each_skip _ _ _ _ (ft_empty _ _ _ Hlast)).
    + by rewrite (try_each_hit _ _ _ _ _ Hlast).
Qed.

(** C3, as the code has it.  [get_changed_files] returns the empty list
    exactly when every strategy, each started where the previous one
    stopped, raised or returned the empty list. *)
Theorem empty_iff_all_fall_through st :
  fst (get_changed_files st) = Ok [] <->
  exists st', all_fall_through six_strategies (entered st) st'.
Proof.
  rewrite get_changed_files_entered. change strategies with six_strategies.
  split.
  - apply try_each_empty.
  - intros [st' Hall].
    rewrite <- (app_nil_r six_strategies).
    by rewrite (try_each_prefix _ _ _ _ Hall).
Qed.


End ChainClaims.

(* ===================================================================== *)
(** ** GitAnalyzer: the scope description *)
(* ===================================================================== *)

Section ScopeClaims.
Context `{Host}.
Import GitAnalyzer.

Lemma get_file_context_changed scope st files st' :
  String.eqb scope "all" = false ->
  get_changed_files st = (Ok files, st') ->
  get_file_context scope st =
    (Ok (if nonempty files
         then "Focus ONLY on these files changed in this PR: "
                +:+ PyStr.join " " files
         else "No changed files detected. Analyze the current repository state."),
     st').
Proof.
  intros Hs E. unfold get_file_context. rewrite Hs.
  unfold bind. rewrite E. by destruct (nonempty files).
Qed.

(** C4. With scope "changed": an empty change set gives the fixed
    no-changes text; a non-empty one gives the instruction followed by the
    paths joined by single blanks in resolver order, on one line, and
    when no path holds a blank, splitting the scope part at blanks gives
    the resolved list back. *)
Theorem changed_scope_description st files st' :
  get_changed_files st = (Ok files, st') ->
  (files = [] ->
   get_file_context "changed" st =
     (Ok "No changed files detected. Analyze the current repository state.",
      st')) /\
  (files <> [] ->
   exists scope_part,
     get_file_context "changed" st =
       (Ok ("Focus ONLY on these files changed in this PR: " +:+ scope_part),
        st') /\
     scope_part = PyStr.join " " files /\
     has_char PyStr.newline
       ("Focus ONLY on these files changed in this PR: " +:+ scope_part)
       = false /\
     (Forall (fun f => has_char space f = false) files ->
      PyStr.split_on space scope_part = files)).
Proof.
  intros E.
  pose proof (get_file_context_changed "changed" st files st' eq_refl E) as G.
  split.
  - intros ->. exact G.
  - intros Hne. exists (PyStr.join " " files).
    split; [by destruct files|]. split; [reflexivity|]. split.
    + destruct (get_changed_files_total_lines st)
        as (files' & st'' & E' & out & ->).
      rewrite E in E'. injection E' as -> _.
      rewrite has_char_app. apply orb_false_iff. split; [reflexivity|].
      apply join_no_char; [reflexivity | apply parse_name_lines_one_line].
    + by apply split_join_space.
Qed.

(** C10. Any scope other than the exact string "all" is treated as
    "changed": the resolver runs, its final state is the final state, and
    the text is the changed-files or the no-changes text, never the
    entire-codebase text. *)
Theorem other_scopes_mean_changed scope st :
  scope <> "all" ->
  get_file_context scope st = get_file_context "changed" st /\
  (exists files st',
      get_changed_files st = (Ok files, st') /\
      get_file_context scope st =
        (Ok (if nonempty files
             then "Focus ONLY on these files changed in this PR: "
                    +:+ PyStr.join " " files
             else "No changed files detected. Analyze the current repository state."),
         st')) /\
  fst (get_file_context scope st)
    <> Ok "Analyze the entire codebase in this repository.".
Proof.
  intros Hne. apply String.eqb_neq in Hne.
  destruct (get_changed_files_total_lines st) as (files & st' & E & _).
  pose proof (get_file_context_changed scope st files st' Hne E) as G.
  pose proof (get_file_context_changed "changed" st files st' eq_refl E) as G'.
  split; [by rewrite G, G'|]. split; [by exists files, st'|].
  rewrite G. simpl. destruct (nonempty files); intros [=].
Qed.

End ScopeClaims.

(* ===================================================================== *)
(** ** ResultManager, AgentRunner and main *)
(* ===================================================================== *)

Section CollectorClaims.

(** C8. [add_result] appends exactly one record after the records already
    there, under the given rule name; the stored output is never empty;
    an empty output is stored as the warning text, which opens with the
    warning mark; any other output is stored as it is. *)
Theorem add_result_appends_one (self : ResultManager.t) rule_name output :
  exists stored,
    ResultManager.add_result self rule_name output
      = self ++ [(rule_name, stored)] /\
    stored <> "" /\
    (output = "" ->
     stored = ResultManager.NO_RESULTS_WARNING /\
     String.prefix ResultManager.warning_marker stored = true) /\
    (output <> "" -> stored = output).
Proof.
  unfold ResultManager.add_result.
  destruct output as [|c output].
  - exists ResultManager.NO_RESULTS_WARNING.
    repeat split; try done.
  - exists (String c output). simpl PyStr.truthy. simpl negb.
    rewrite orb_false_l.
    split; [by destruct (_ <? _)%nat|]. repeat split; done.
Qed.

(** Records are kept in call order: a second call comes after the first. *)
Lemma add_result_order (self : ResultManager.t) r1 o1 r2 o2 :
  map fst (ResultManager.add_result
             (ResultManager.add_result self r1 o1) r2 o2)
    = map fst self ++ [r1; r2].
Proof.
  unfold ResultManager.add_result.
  rewrite !map_app, <- app_assoc. reflexivity.
Qed.

End CollectorClaims.

Section MainClaims.
Context `{Host}.

Lemma load_rule_prompt_missing self rule st :
  fs (st_world st)
    !! path_join (PromptBuilder.rules_dir self) (rule +:+ ".prompt") = None ->
  exists e,
    PromptBuilder.load_rule_prompt self rule st = (Raise e, st) /\
    is_class FileNotFoundError e = true.
Proof.
  intros Hnone. unfold PromptBuilder.load_rule_prompt, path_exists,
    bind, get_world, ret. simpl. rewrite Hnone.
  rewrite bool_decide_eq_false_2 by (by intros [? ?]).
  simpl. by eexists.
Qed.

(** C5, as the code has it.  For a named rule: a missing template makes
    [load_rule_prompt] raise [FileNotFoundError]; a [FileNotFoundError]
    from the rule's [try] block ends the run with exit status 1 at that
    rule, with nothing recorded and no later rule processed; an exception
    of any other class is recorded under the rule's name as "Error: "
    followed by its text, and the loop goes on with the next rule. *)
Theorem missing_rule_template_is_fatal r rm rule rest st :
  PyStr.truthy rule = true ->
  (fs (st_world st)
     !! path_join (PromptBuilder.rules_dir (prompt_builder r))
                  (rule +:+ ".prompt") = None ->
   for_each (process_rule r) (rule :: rest) rm st = (Exit 1, st)) /\
  (forall e st',
      rule_body r rm rule st = (Raise e, st') ->
      is_class FileNotFoundError e = true ->
      for_each (process_rule r) (rule :: rest) rm st = (Exit 1, st')) /\
  (forall e st',
      rule_body r rm rule st = (Raise e, st') ->
      is_class FileNotFoundError e = false ->
      for_each (process_rule r) (rule :: rest) rm st
        = for_each (process_rule r) rest
            (ResultManager.add_result rm rule ("Error: " +:+ str_exn e)) st').
Proof.
  intros Ht.
  assert (Hfatal : forall e st',
             rule_body r rm rule st = (Raise e, st') ->
             is_class FileNotFoundError e = true ->
             for_each (process_rule r) (rule :: rest) rm st = (Exit 1, st')).
  { intros e st' E Hc. cbn [for_each]. unfold bind at 1. unfold process_rule.
    rewrite Ht. cbn [negb]. unfold try_except. rewrite E, Hc. reflexivity. }
  split; [|split].
  - intros Hnone.
    destruct (load_rule_prompt_missing (prompt_builder r) rule st Hnone)
      as (e & E & Hc).
    apply (Hfatal e st); [|exact Hc].
    unfold rule_body, bind. by rewrite E.
  - exact Hfatal.
  - intros e st' E Hc. cbn [for_each]. unfold bind at 1. unfold process_rule.
    rewrite Ht. cbn [negb]. unfold try_except. rewrite E, Hc. reflexivity.
Qed.

Lemma truthy_of_length s n :
  (0 < n)%nat -> PyStr.len s = n -> PyStr.truthy s = true.
Proof. destruct s; simpl; [lia | done]. Qed.

(** C7. A custom prompt of exactly 5000 characters passes the input
    checks: [main] goes on with its body.  With more than 5000 characters,
    that is 5001 or more, [main] exits with status 1 right after its first
    log line: the world is untouched and no process has been started.
    Characters are counted as [len] counts them, in code points: a prompt
    of 5000 accented letters is 10000 bytes long and passes. *)
Theorem custom_prompt_length_limit args st :
  (PyStr.len (custom_prompt args) = 5000%nat ->
   main args st = main_body args (action_dir_of (st_world st)) (started st)) /\
  ((5000 < PyStr.len (custom_prompt args))%nat ->
   main args st = (Exit 1, started st)).
Proof.
  unfold main, validate_inputs, bind, log, emit, get_world. simpl.
  fold (started st). split; intros Hlen.
  - rewrite (truthy_of_length (custom_prompt args) 5000) by (done || lia).
    simpl. rewrite andb_false_r. simpl.
    destruct (Nat.ltb_spec 5000 (PyStr.len (custom_prompt args)));
      [lia | reflexivity].
  - rewrite (truthy_of_length (custom_prompt args)
               (PyStr.len (custom_prompt args))) by (done || lia).
    simpl. rewrite andb_false_r. simpl.
    destruct (Nat.ltb_spec 5000 (PyStr.len (custom_prompt args)));
      [reflexivity | lia].
Qed.

End MainClaims.

(* ===================================================================== *)
(** ** AgentRunner: the temporary prompt file *)
(* ===================================================================== *)

Section AgentClaims.
Context `{Host}.
Import AgentRunner.

Lemma keeps_fs_ret {A} (a : A) : keeps_fs (ret a).
Proof. by intros st. Qed.

Lemma keeps_fs_bind {A B} (m : M A) (k : A -> M B) :
  keeps_fs m -> (forall a, keeps_fs (k a)) -> keeps_fs (bind m k).
Proof.
  intros Hm Hk st. specialize (Hm st). unfold bind.
  destruct (m st) as [[a|e|c] st']; simpl in *; [|done|done].
  by rewrite (Hk a st').
Qed.

Lemma keeps_fs_try_except {A} (m : M A) (h : exn -> M A) :
  keeps_fs m -> (forall e, keeps_fs (h e)) -> keeps_fs (try_except m h).
Proof.
  intros Hm Hh st. specialize (Hm st). unfold try_except.
  destruct (m st) as [[a|e|c] st']; simpl in *; [done| |done].
  by rewrite (Hh e st').
Qed.

Lemma keeps_fs_try_finally {A} (m : M A) (c : M unit) :
  keeps_fs m -> keeps_fs c -> keeps_fs (try_finally m c).
Proof.
  intros Hm Hc st. specialize (Hm st). unfold try_finally.
  destruct (m st) as [r st']. specialize (Hc st').
  destruct (c st') as [[u|e|x] st'']; simpl in *; congruence.
Qed.

Lemma keeps_fs_get_world : keeps_fs get_world.
Proof. by intros st. Qed.

Lemma keeps_fs_subprocess_run_with cmd stdin env check :
  (forall c i e w, fs (snd (spawn c i e w)) = fs w) ->
  keeps_fs (subprocess_run_with cmd stdin env check).
Proof.
  intros Hspawn st.
  unfold subprocess_run_with, bind, emit, get_world, put_world, raise, ret.
  simpl. specialize (Hspawn cmd stdin env (st_world st)).
  destruct (spawn cmd stdin env (st_world st)) as [[e|cp] w']; simpl in *;
    [done|].
  by destruct (check && negb (returncode cp =? 0)).
Qed.

Lemma keeps_fs_agent_env agent config model :
  keeps_fs (agent_env agent config model).
Proof.
  intros st. unfold agent_env, setup_opencode_environment, bind, get_world.
  destruct (String.eqb agent "opencode"); [done|]. simpl.
  destruct (environ (st_world st) !! env_key config); [|done].
  destruct (String.eqb agent "cursor"); [done|].
  by destruct (String.eqb agent "amp").
Qed.

Lemma keeps_fs_run_agent_direct agent config model cmd_args :
  (forall c i e w, fs (snd (spawn c i e w)) = fs w) ->
  keeps_fs (run_agent agent config model cmd_args None).
Proof.
  intros Hspawn. unfold run_agent.
  apply keeps_fs_bind; [apply keeps_fs_agent_env|]. intros env.
  apply keeps_fs_bind.
  - simpl. by apply keeps_fs_subprocess_run_with.
  - intros result. destruct (returncode result =? 0); apply keeps_fs_ret.
Qed.

(** The configured agents, by name. *)
Lemma config_known agent config :
  AGENT_CONFIG !! agent = Some config ->
  agent ∈ ["cursor"; "claude"; "gemini"; "codex"; "amp"; "opencode"].
Proof.
  intros Hcfg. apply elem_of_list_to_map_2 in Hcfg.
  repeat (apply elem_of_cons in Hcfg as [[= -> _]|Hcfg];
          [set_solver|]).
  by apply elem_of_nil in Hcfg.
Qed.

(** Every branch but cursor's forgets the path of the temporary file. *)
Lemma build_command_drops_path agent config prompt model p :
  AGENT_CONFIG !! agent = Some config ->
  agent <> "cursor" ->
  snd (build_command agent config prompt model p) = None.
Proof.
  intros Hcfg Hne. apply config_known in Hcfg.
  repeat (apply elem_of_cons in Hcfg as [->|Hcfg]; [done|]).
  by apply elem_of_nil in Hcfg.
Qed.

Lemma which_found c st cp st1 :
  subprocess_run ["which"; c] None true st = (Ok cp, st1) ->
  try_except_class CalledProcessError
    (subprocess_run ["which"; c] None true ;;; ret true)
    (fun _ => ret false) st = (Ok true, st1).
Proof. intros E. unfold try_except_class, bind. by rewrite E. Qed.

Lemma named_temporary_file_spec text st :
  named_temporary_file text st =
    (Ok (mktemp (st_world st)),
     mk_state (mk_world (<[mktemp (st_world st) := plain_file text]>
                           (fs (st_world st)))
                        (environ (st_world st)) (cwd (st_world st))
                        (ext (st_world st)))
              (st_trace st)).
Proof. reflexivity. Qed.

(** C6, where the code departs from it.  For every configured agent other
    than cursor, once [which] has found the executable and as long as the
    children leave the file system alone, the temporary file
    [execute_agent] created is still on disk, holding the prompt, when
    [execute_agent] is over. *)
Theorem temp_file_left_behind agent config prompt model st cp st1 :
  AGENT_CONFIG !! agent = Some config ->
  agent <> "cursor" ->
  subprocess_run ["which"; cmd config] None true st = (Ok cp, st1) ->
  (forall c i e w, fs (snd (spawn c i e w)) = fs w) ->
  fs (st_world (snd (execute_agent agent prompt model st)))
    !! mktemp (st_world st1) = Some (plain_file prompt).
Proof.
  intros Hcfg Hne Hwhich Hspawn. unfold execute_agent. rewrite Hcfg.
  unfold bind at 1. rewrite (which_found _ _ _ _ Hwhich). cbn [negb].
  unfold bind at 1. rewrite named_temporary_file_spec.
  pose proof (build_command_drops_path agent config prompt model
                (mktemp (st_world st1)) Hcfg Hne) as Hdrop.
  destruct (build_command agent config prompt model (mktemp (st_world st1)))
    as [cmd_args p]. simpl in Hdrop. subst p.
  match goal with
  | |- fs (st_world (snd (?m ?s))) !! _ = _ =>
      assert (Hk : keeps_fs m)
  end.
  { apply keeps_fs_try_finally; [|apply keeps_fs_ret].
    apply keeps_fs_try_except; [by apply keeps_fs_run_agent_direct|].
    intros e. destruct (is_class TimeoutExpired e); apply keeps_fs_ret. }
  rewrite Hk. simpl. apply lookup_insert_eq.
Qed.

Lemma cleanup_removes p st :
  PyStr.truthy p = true ->
  fs (st_world (snd (cleanup (Some p) st))) !! p = None.
Proof.
  intros Hp. unfold cleanup, path_exists, os_unlink, bind, get_world,
    put_world, ret. rewrite Hp. simpl.
  destruct (bool_decide (is_Some (fs (st_world st) !! p))) eqn:E; simpl.
  - apply lookup_delete_eq.
  - apply bool_decide_eq_false in E.
    destruct (fs (st_world st) !! p) eqn:L; [|done].
    exfalso. apply E. by eexists.
Qed.

Lemma try_finally_state {A} (m : M A) (c : M unit) st :
  snd (try_finally m c st) = snd (c (snd (m st))).
Proof.
  unfold try_finally. destruct (m st) as [r st']. simpl.
  destruct (c st') as [[u|e|x] st'']; reflexivity.
Qed.

(** X23. The cursor branch keeps the path, and its [finally] clause removes
    the file whatever the child did or raised. *)
Lemma cursor_temp_file_removed prompt model st cp st1 :
  subprocess_run ["which"; "cursor-agent"] None true st = (Ok cp, st1) ->
  PyStr.truthy (mktemp (st_world st1)) = true ->
  fs (st_world (snd (execute_agent "cursor" prompt model st)))
    !! mktemp (st_world st1) = None.
Proof.
  intros Hwhich Hname. unfold execute_agent.
  change (AGENT_CONFIG !! "cursor")
    with (Some (mk_config "cursor-agent" "CURSOR_API_KEY" "gpt-5"
                          ["-p"; "--output-format"; "text"; "--force"])).
  cbn [cmd]. unfold bind at 1. rewrite (which_found _ _ _ _ Hwhich).
  cbn [negb]. unfold bind at 1. rewrite named_temporary_file_spec.
  change (build_command "cursor" ?c prompt model ?p)
    with (cmd c :: args c ++ ["--model"; model], Some p).
  cbv beta iota. rewrite try_finally_state. by apply cleanup_removes.
Qed.

End AgentClaims.

(* ===================================================================== *)
(** ** Worked runs *)
(* ===================================================================== *)

Section Runs.
Import Scenario GitAnalyzer.

Ltac run := vm_compute; reflexivity.
Ltac fall := first [ eapply ft_raise; run | eapply ft_empty; run ].
Ltac falls := repeat first [ apply aft_nil | eapply aft_cons; [fall|] ].

(** An ordinary commit with no known base: the first five strategies fall
    through and the single-commit diff answers. *)
Lemma plain_commit_resolved :
  fst (@get_changed_files (scripted plain_commit) (start world0))
    = Ok ["a.py"; "b.py"].
Proof.
  refine (f_equal fst
            (@first_successful_strategy_wins (scripted plain_commit)
               (@first_five (scripted plain_commit))
               (@_try_single_commit (scripted plain_commit)) []
               (start world0) _ ["a.py"; "b.py"] _ eq_refl _ _ _)).
  - falls.
  - run.
  - discriminate.
Defined.

(** Without git every strategy raises and the answer is the empty list;
    on a branch level with main the terminal diff is empty and that empty
    list is the answer. *)
Lemma no_git_resolves_to_nothing :
  fst (@get_changed_files (scripted no_git) (start world0)) = Ok [] /\
  fst (@get_changed_files (scripted up_to_date) (start world0)) = Ok [].
Proof.
  split.
  - refine (f_equal fst
              (proj1 (proj2 (@get_changed_files_never_raises
                               (scripted no_git) (start world0))) _ _)).
    unfold six_strategies. falls.
  - refine (proj2 (proj2 (@get_changed_files_never_raises
                            (scripted up_to_date) (start world0))) _ [] _ _ _).
    + unfold first_five. falls.
    + run.
Defined.

(** C3 as stated fails: on a branch level with main the merge-base
    strategy is applicable and completes without error, yet the resolver
    returns the empty list. *)
Lemma empty_result_after_successful_strategy :
  (exists st1,
      @_try_merge_base (scripted up_to_date)
        (@entered (scripted up_to_date) (start world0)) = (Ok [], st1)) /\
  fst (@get_changed_files (scripted up_to_date) (start world0)) = Ok [].
Proof. split; [eexists; run | run]. Qed.

(** A feature branch with two changed files, and a branch with none. *)
Lemma scope_text_of_feature_branch :
  fst (@get_file_context (scripted feature_branch) "changed" (start world0))
    = Ok "Focus ONLY on these files changed in this PR: a.py b.py" /\
  fst (@get_file_context (scripted up_to_date) "changed" (start world0))
    = Ok "No changed files detected. Analyze the current repository state.".
Proof.
  split.
  - destruct (proj2 (@changed_scope_description (scripted feature_branch)
                       (start world0) ["a.py"; "b.py"]
                       (snd (@get_changed_files (scripted feature_branch)
                               (start world0)))
                       ltac:(run))
                    ltac:(discriminate))
      as (scope_part & G & -> & _).
    rewrite G. reflexivity.
  - rewrite (proj1 (@changed_scope_description (scripted up_to_date)
                      (start world0) []
                      (snd (@get_changed_files (scripted up_to_date)
                              (start world0)))
                      ltac:(run))
                   eq_refl).
    reflexivity.
Defined.

(** A misspelt scope is read as "changed". *)
Lemma misspelt_scope_is_changed :
  fst (@get_file_context (scripted feature_branch) "chnaged" (start world0))
    = Ok "Focus ONLY on these files changed in this PR: a.py b.py".
Proof.
  rewrite (proj1 (@other_scopes_mean_changed (scripted feature_branch)
                    "chnaged" (start world0) ltac:(discriminate))).
  run.
Defined.

(** C5 as stated fails: with rules [missing security], the missing
    template ends the run with exit status 1; no result file is written
    and the agent is never started, not even for the rule that exists. *)
Lemma missing_rule_aborts_run :
  exit_status
    (fst (@main (scripted feature_branch)
            (mk_args "missing security" "" "cursor" "changed" "[]")
            (start world0))) = 1 /\
  fs (st_world (snd (@main (scripted feature_branch)
                       (mk_args "missing security" "" "cursor" "changed" "[]")
                       (start world0)))) !! "results.json" = None /\
  ran_program "cursor-agent"
    (st_trace (snd (@main (scripted feature_branch)
                      (mk_args "missing security" "" "cursor" "changed" "[]")
                      (start world0)))) = false.
Proof. repeat split; run. Qed.

(** The rules loop on a missing template, and on a lookup of the
    executable that raises an [OSError]. *)
Lemma rules_loop_on_failures :
  @for_each (scripted feature_branch)
    (@process_rule (scripted feature_branch) run0)
    ["missing"; "security"] [] (start world0) = (Exit 1, start world0) /\
  fst (@for_each (scripted which_denied)
         (@process_rule (scripted which_denied) run0)
         ["security"; "performance"] [] (start world0))
    = Ok [("security", "Error: Permission denied: 'which'");
          ("performance", "Error: Permission denied: 'which'")].
Proof.
  split.
  - refine (proj1 (@missing_rule_template_is_fatal (scripted feature_branch)
                     run0 [] "missing" ["security"] (start world0) eq_refl) _).
    run.
  - rewrite (proj2 (proj2 (@missing_rule_template_is_fatal
                             (scripted which_denied)
                             run0 [] "security" ["performance"] (start world0)
                             eq_refl))
                   (mk_exn OSError "Permission denied: 'which'")
                   (snd (@rule_body (scripted which_denied) run0 []
                           "security" (start world0)))
                   ltac:(run) eq_refl).
    run.
Defined.

(** The failing input of C6: agent claude, its executable found. *)
Lemma claude_leaves_temp_file :
  fs empty_world !! "/tmp/tmpq1w2e3.txt" = None /\
  fs (st_world (snd (@AgentRunner.execute_agent (scripted feature_branch)
                       "claude" "Review this." "claude-sonnet-4-20250514"
                       (start empty_world))))
    !! "/tmp/tmpq1w2e3.txt" = Some (plain_file "Review this.").
Proof.
  split; [reflexivity|].
  refine (@temp_file_left_behind (scripted feature_branch) "claude"
            (AgentRunner.mk_config "claude" "ANTHROPIC_API_KEY"
               "claude-sonnet-4-20250514" ["--output-format"; "text"])
            "Review this." "claude-sonnet-4-20250514" (start empty_world)
            (mk_cp 0 "/usr/bin/agent" "")
            (mk_state empty_world [EvRun ["which"; "claude"] None])
            _ _ _ _).
  - run.
  - discriminate.
  - run.
  - reflexivity.
Defined.

(** The same call for cursor leaves nothing behind. *)
Example cursor_leaves_no_temp_file :
  fs (st_world (snd (@AgentRunner.execute_agent (scripted feature_branch)
                       "cursor" "Review this." "gpt-5" (start empty_world))))
    = ∅.
Proof. run. Qed.

(** A custom prompt of 5000 letters is let through to the body of [main];
    one of 5001 letters ends the run before anything else happens. *)
(** Characters and bytes, and blanks outside ASCII. *)
Example non_ascii_blanks :
  PyStr.len ResultManager.warning_marker = 2%nat /\
  String.length ResultManager.warning_marker = 6%nat /\
  PyStr.space_len (nbsp +:+ "a.py") = 2%nat /\
  PyStr.ends_with_space ("a.py" +:+ ideographic_space) = true /\
  PyStr.strip (nbsp +:+ " a.py" +:+ ideographic_space) = "a.py" /\
  PyStr.split_ws ("a" +:+ nbsp +:+ "b c") = ["a"; "b"; "c"].
Proof. repeat split; run. Qed.

(** Lines wrapped in blanks of several kinds, and a line of blanks only. *)
Example name_lines_lose_every_blank :
  parse_name_lines
    (nbsp +:+ "a.py" +:+ ideographic_space +:+ String PyStr.newline
       (ideographic_space +:+ nbsp +:+ String PyStr.newline " b.py "))
    = ["a.py"; "b.py"].
Proof. run. Qed.

Lemma custom_prompt_at_the_limit :
  @main (scripted feature_branch)
    (mk_args "[]" (xs 5000) "cursor" "changed" "[]") (start world0)
    = @main_body (scripted feature_branch)
        (mk_args "[]" (xs 5000) "cursor" "changed" "[]") "/action"
        (@started (scripted feature_branch) (start world0)) /\
  @main (scripted feature_branch)
    (mk_args "[]" (xs 5001) "cursor" "changed" "[]") (start world0)
    = (Exit 1, @started (scripted feature_branch) (start world0)) /\
  String.length (accented 5000) = 10000%nat /\
  @main (scripted feature_branch)
    (mk_args "[]" (accented 5000) "cursor" "changed" "[]") (start world0)
    = @main_body (scripted feature_branch)
        (mk_args "[]" (accented 5000) "cursor" "changed" "[]") "/action"
        (@started (scripted feature_branch) (start world0)) /\
  @main (scripted feature_branch)
    (mk_args "[]" (accented 5001) "cursor" "changed" "[]") (start world0)
    = (Exit 1, @started (scripted feature_branch) (start world0)).
Proof.
  split; [|split; [|split; [|split]]].
  - refine (proj1 (@custom_prompt_length_limit (scripted feature_branch)
                     (mk_args "[]" (xs 5000) "cursor" "changed" "[]")
                     (start world0)) _).
    run.
  - refine (proj2 (@custom_prompt_length_limit (scripted feature_branch)
                     (mk_args "[]" (xs 5001) "cursor" "changed" "[]")
                     (start world0)) _).
    apply Nat.ltb_lt. run.
  - run.
  - refine (proj1 (@custom_prompt_length_limit (scripted feature_branch)
                     (mk_args "[]" (accented 5000) "cursor" "changed" "[]")
                     (start world0)) _).
    run.
  - refine (proj2 (@custom_prompt_length_limit (scripted feature_branch)
                     (mk_args "[]" (accented 5001) "cursor" "changed" "[]")
                     (start world0)) _).
    apply Nat.ltb_lt. run.
Defined.

(** The end-to-end scenario of the specification: two rules, scope
    "changed", a strategy reporting [a.py] and [b.py].  The run completes,
    both prompts name [a.py b.py], and the result file holds the two
    records in order. *)
Example end_to_end :
  let r := @main (scripted feature_branch)
             (mk_args "security performance" "" "cursor" "changed" "[]")
             (start world0) in
  fst r = Ok tt /\
  exit_status (fst r) = 0 /\
  content <$> (fs (st_world (snd r)) !! "results.json")
    = Some "security=analysis finished without findings;performance=analysis finished without findings" /\
  forallb (fun ev =>
             match ev with
             | EvRun ("cursor-agent" :: _) (Some prompt) =>
                 PyStr.contains "these files changed in this PR: a.py b.py" prompt
             | _ => true
             end) (st_trace (snd r)) = true /\
  ran_program "cursor-agent" (st_trace (snd r)) = true.
Proof. repeat split; run. Qed.

End Runs.

(* ===================================================================== *)
(** ** Further properties: name lines and list inputs *)
(* ===================================================================== *)

Section NameLineFacts.

Lemma ends_with_space_drop n s :
  PyStr.ends_with_space (PyStr.drop n s) = true ->
  PyStr.ends_with_space s = true.
Proof.
  revert n. induction s as [|c s IH]; intros [|n]; try done.
  simpl PyStr.drop. intros Hd. cbn [PyStr.ends_with_space].
  rewrite (IH _ Hd). apply orb_true_r.
Qed.

(** A non-empty string of whitespace only ends with a whitespace character. *)
Lemma all_space_ends n s :
  (String.length s <= n)%nat ->
  s <> EmptyString ->
  PyStr.is_empty (PyStr.lstrip s) = true ->
  PyStr.ends_with_space s = true.
Proof.
  revert s. induction n as [|n IH]; intros s Hn Hne Hl.
  - destruct s; [done | simpl in Hn; lia].
  - destruct (PyStr.space_len s) as [|k] eqn:E.
    + rewrite (lstrip_fixed _ E) in Hl. by destruct s.
    + rewrite (lstrip_step _ _ E) in Hl.
      pose proof (space_len_le s) as Hle. rewrite E in Hle.
      destruct (PyStr.drop (S k) s) as [|d r] eqn:Hd.
      * assert (String.length s = S k) as Hlen.
        { pose proof (drop_length (S k) s) as Hdl. rewrite Hd in Hdl.
          simpl in Hdl. lia. }
        destruct s as [|c s]; [done|].
        cbn [PyStr.ends_with_space]. unfold PyStr.is_space_char.
        rewrite E, Hlen, Nat.eqb_refl. done.
      * apply (ends_with_space_drop (S k)). rewrite Hd. apply IH.
        -- pose proof (drop_length (S k) s) as Hdl. rewrite Hd in Hdl. lia.
        -- done.
        -- exact Hl.
Qed.

Lemma rstrip_fixed s : PyStr.ends_with_space s = false -> PyStr.rstrip s = s.
Proof.
  induction s as [|c s IH]; [done|].
  intros He. pose proof He as He'. cbn [PyStr.ends_with_space] in He'.
  apply orb_false_iff in He' as [_ Hs].
  cbn [PyStr.rstrip].
  destruct (PyStr.is_empty (PyStr.lstrip (String c s))) eqn:E.
  - rewrite (all_space_ends _ _ (le_n _)) in He; done.
  - by rewrite (IH Hs).
Qed.

Lemma strip_of_clean f : clean f -> PyStr.strip f = f.
Proof.
  intros (_ & Hl & Hr). unfold PyStr.strip.
  rewrite (lstrip_fixed _ Hl). by apply rstrip_fixed.
Qed.

(** X1. The comprehension of the strategies gives back, in order and with
    repetitions kept, the paths of an output that lists one path per line,
    as long as each path is non-empty, neither begins nor ends with a
    whitespace character ([str.isspace], not only the ASCII blanks) and
    holds no newline. *)
Theorem parse_name_lines_round_trip files :
  Forall clean files ->
  Forall (fun f => has_char PyStr.newline f = false) files ->
  parse_name_lines (name_only_output files) = files.
Proof.
  intros Hclean. induction Hclean as [|f files Hf _ IH]; intros Hnl.
  - reflexivity.
  - inversion Hnl as [|? ? Hfnl Hrest]; subst. specialize (IH Hrest).
    unfold parse_name_lines in *. simpl name_only_output.
    rewrite (split_on_field _ _ _ Hfnl).
    rewrite filter_cons_True.
    + simpl map. rewrite IH. by rewrite (strip_of_clean f Hf).
    + rewrite (strip_of_clean f Hf). by destruct Hf.
Qed.

Lemma append_assoc (a b c : string) : (a +:+ b) +:+ c = a +:+ (b +:+ c).
Proof.
  induction a as [|x a IH]; [done|].
  change (String x ((a +:+ b) +:+ c) = String x (a +:+ (b +:+ c))).
  by rewrite IH.
Qed.

Lemma append_nil_r (a : string) : a +:+ EmptyString = a.
Proof.
  induction a as [|x a IH]; [done|].
  change (String x (a +:+ EmptyString) = String x a). by rewrite IH.
Qed.

Lemma no_blank_before_snoc cur c s :
  no_blank_before cur (String c s) ->
  PyStr.space_len (String c s) = 0%nat ->
  no_blank_before (cur +:+ String c EmptyString) s.
Proof.
  intros Hcur Hc. induction cur as [|a cur IH].
  - by split.
  - destruct Hcur as [Ha Hcur]. split; [|by apply IH].
    change (PyStr.space_len ((String a cur +:+ String c EmptyString) +:+ s) = 0%nat).
    rewrite append_assoc. exact Ha.
Qed.

Lemma no_blank_before_no_blank cur s :
  no_blank_before cur s -> no_blank cur = true.
Proof.
  induction cur as [|a cur IH]; [done|]. intros [Ha Hcur].
  cbn [no_blank]. rewrite (space_len_prefix _ _ Ha). by rewrite IH.
Qed.

Lemma split_ws_go_items s k cur :
  (k = 0%nat \/ cur = EmptyString) ->
  no_blank_before cur (PyStr.drop k s) ->
  Forall (fun w => PyStr.truthy w = true /\ no_blank w = true)
         (PyStr.split_ws_go k cur s).
Proof.
  revert k cur. induction s as [|c s IH]; intros k cur Hk Hcur.
  - cbn [PyStr.split_ws_go]. destruct cur as [|a cur]; [constructor|].
    constructor; [|constructor]. split; [done|].
    apply (no_blank_before_no_blank _ (PyStr.drop k EmptyString) Hcur).
  - destruct k as [|k]; cbn [PyStr.split_ws_go].
    + cbn [PyStr.drop] in Hcur.
      destruct (PyStr.space_len (String c s)) as [|n] eqn:E.
      * apply IH; [by left|]. by apply no_blank_before_snoc.
      * assert (Forall (fun w => PyStr.truthy w = true /\ no_blank w = true)
                       (PyStr.split_ws_go n EmptyString s)) as Hrest
          by (apply IH; [by right | done]).
        destruct cur as [|a cur]; [exact Hrest|].
        constructor; [|exact Hrest]. split; [done|].
        apply (no_blank_before_no_blank _ _ Hcur).
    + destruct Hk as [Hk | ->]; [done|]. apply IH; [by right | done].
Qed.

Lemma split_ws_items s :
  Forall (fun w => PyStr.truthy w = true /\ no_blank w = true)
         (PyStr.split_ws s).
Proof. apply split_ws_go_items; [by left | done]. Qed.

(** A blank between two words: the first word is cut off there. *)
Lemma space_len_before_space t r :
  t <> EmptyString ->
  PyStr.space_len t = 0%nat ->
  PyStr.space_len (t +:+ String space r) = 0%nat.
Proof.
  destruct t as [|c1 [|c2 [|c3 t]]]; [done|..]; intros _; simpl;
    unfold PyStr.is_space2, PyStr.is_space3;
    change (PyStr.code space) with 32%nat; simpl;
    rewrite ?andb_false_r; simpl; try done.
  destruct (PyStr.is_space1 c1); [done|]. by destruct r.
Qed.

Lemma split_ws_go_word w cur rest :
  no_blank w = true ->
  PyStr.truthy (cur +:+ w) = true ->
  PyStr.split_ws_go 0 cur (w +:+ String space rest)
  = (cur +:+ w) :: PyStr.split_ws_go 0 EmptyString rest.
Proof.
  revert cur. induction w as [|c w IH]; intros cur Hw Hne.
  - rewrite append_nil_r in *. destruct cur as [|a cur]; [done|].
    reflexivity.
  - cbn [no_blank] in Hw. apply andb_true_iff in Hw as [Hc Hw].
    apply Nat.eqb_eq in Hc.
    change (String c w +:+ String space rest)
      with (String c (w +:+ String space rest)).
    cbn [PyStr.split_ws_go].
    change (String c (w +:+ String space rest))
      with (String c w +:+ String space rest).
    rewrite (space_len_before_space (String c w) rest); [|done|exact Hc].
    rewrite IH; [| exact Hw |]; by rewrite append_assoc.
Qed.

Lemma split_ws_go_last w cur :
  no_blank w = true ->
  PyStr.truthy (cur +:+ w) = true ->
  PyStr.split_ws_go 0 cur w = [cur +:+ w].
Proof.
  revert cur. induction w as [|c w IH]; intros cur Hw Hne.
  - rewrite append_nil_r in *. by destruct cur.
  - cbn [no_blank] in Hw. apply andb_true_iff in Hw as [Hc Hw].
    apply Nat.eqb_eq in Hc.
    cbn [PyStr.split_ws_go]. rewrite Hc.
    rewrite IH; [| exact Hw |]; by rewrite append_assoc.
Qed.

(** Words without whitespace, joined by single blanks, are split into
    themselves. *)
Lemma split_ws_join words :
  Forall (fun w => PyStr.truthy w = true /\ no_blank w = true) words ->
  PyStr.split_ws (PyStr.join (String space EmptyString) words) = words.
Proof.
  induction 1 as [|w words [Hne Hw] Hrest IH]; [done|].
  destruct words as [|v words].
  - by apply split_ws_go_last.
  - change (PyStr.join (String space EmptyString) (w :: v :: words))
      with (w +:+ String space EmptyString
              +:+ PyStr.join (String space EmptyString) (v :: words)).
    unfold PyStr.split_ws.
    change (w +:+ String space EmptyString +:+ ?r)
      with (w +:+ String space r).
    rewrite (split_ws_go_word w EmptyString); [| exact Hw | exact Hne].
    f_equal. exact IH.
Qed.

(** X2. [parse_input_list] returns no item for the empty string and for
    "[]".  When neither parser finds a list in the input, every item
    returned is non-empty and holds no whitespace character; and an input
    other than "[]" that lists such items with one blank between them is
    read as exactly these items, in order. *)
Theorem parse_input_list_fallback `{Host} input_str :
  (input_str = "" \/ input_str = "[]" -> parse_input_list input_str = []) /\
  ((forall items, yaml_safe_load input_str <> ParsedList items) ->
   (forall items, json_loads input_str <> ParsedList items) ->
   Forall word (parse_input_list input_str) /\
   (forall words,
      Forall word words ->
      input_str = PyStr.join " " words ->
      input_str <> "[]" ->
      parse_input_list input_str = words)).
Proof.
  split.
  - by intros [-> | ->].
  - intros Hy Hj.
    assert (PyStr.truthy input_str = true -> input_str <> "[]" ->
            parse_input_list input_str = PyStr.split_ws input_str) as Hsplit.
    { intros Ht Hne. unfold parse_input_list. rewrite Ht.
      apply String.eqb_neq in Hne. rewrite Hne. cbn [negb orb].
      destruct (yaml_safe_load input_str) as [| items |] eqn:Ey;
        [| by destruct (Hy items) |];
        (destruct (json_loads input_str) as [| items |] eqn:Ej;
         [| by destruct (Hj items) |]); reflexivity. }
    split.
    + unfold parse_input_list.
      destruct (negb (PyStr.truthy input_str) || String.eqb input_str "[]");
        [constructor|].
      destruct (yaml_safe_load input_str) as [| items |] eqn:Ey;
        [| by destruct (Hy items) |];
        (destruct (json_loads input_str) as [| items |] eqn:Ej;
         [| by destruct (Hj items) |]);
        apply split_ws_items.
    + intros words Hwords Hin Hne.
      destruct (PyStr.truthy input_str) eqn:Ht.
      * rewrite (Hsplit eq_refl Hne), Hin. by apply split_ws_join.
      * destruct input_str; [|done].
        destruct Hwords as [|w words [Hw _] Hrest]; [done|].
        destruct w; [done|]. by destruct words.
Qed.

End NameLineFacts.

(* ===================================================================== *)
(** ** Further properties: the strategies one by one *)
(* ===================================================================== *)

Section StrategyFacts.
Context `{Host}.
Import GitAnalyzer.

Lemma subprocess_run_completed cmd stdin env check st cp w' :
  spawn cmd stdin env (st_world st) = (inr cp, w') ->
  check = false \/ returncode cp = 0 ->
  subprocess_run_with cmd stdin env check st
    = (Ok cp, mk_state w' (st_trace st ++ [EvRun cmd stdin])).
Proof.
  intros E Hok. unfold subprocess_run_with, bind, emit, get_world, put_world.
  simpl. rewrite E. simpl.
  destruct Hok as [-> | ->]; [reflexivity|]. by rewrite andb_false_r.
Qed.

Lemma subprocess_run_nonzero cmd stdin env st cp w' :
  spawn cmd stdin env (st_world st) = (inr cp, w') ->
  returncode cp <> 0 ->
  subprocess_run_with cmd stdin env true st
    = (Raise (mk_exn CalledProcessError
                     (called_process_error_msg cmd (returncode cp))),
       mk_state w' (st_trace st ++ [EvRun cmd stdin])).
Proof.
  intros E Hrc. unfold subprocess_run_with, bind, emit, get_world, put_world.
  simpl. rewrite E. simpl.
  apply Z.eqb_neq in Hrc. by rewrite Hrc.
Qed.

Lemma subprocess_run_raised cmd stdin env check st e w' :
  spawn cmd stdin env (st_world st) = (inl e, w') ->
  subprocess_run_with cmd stdin env check st
    = (Raise e, mk_state w' (st_trace st ++ [EvRun cmd stdin])).
Proof.
  intros E. unfold subprocess_run_with, bind, emit, get_world, put_world.
  simpl. by rewrite E.
Qed.

(** X3. The merge-base strategy does not look at how the fetch ended.  Once
    the fetch and the merge-base query have completed: a non-zero
    merge-base status raises "Could not determine merge-base" with no diff
    run; a zero status runs one diff against the stripped merge-base
    output, whose name lines are the result, or whose non-zero status is a
    [CalledProcessError]. *)
Theorem merge_base_strategy_outcomes st cp1 w1 cp2 w2 :
  spawn ["git"; "fetch"; "origin"; "main:main"] None None (st_world st)
    = (inr cp1, w1) ->
  spawn ["git"; "merge-base"; "HEAD"; "main"] None None w1 = (inr cp2, w2) ->
  let tr := st_trace st
              ++ [EvLog DEBUG
                    "Strategy 1: Using merge-base with explicit calculation";
                  EvRun ["git"; "fetch"; "origin"; "main:main"] None;
                  EvRun ["git"; "merge-base"; "HEAD"; "main"] None] in
  let diff := ["git"; "diff"; "--name-only";
               PyStr.strip (stdout cp2); "HEAD"] in
  (returncode cp2 <> 0 ->
   _try_merge_base st
     = (Raise (mk_exn OtherException "Could not determine merge-base"),
        mk_state w2 tr)) /\
  (returncode cp2 = 0 ->
   forall cp3 w3,
     spawn diff None None w2 = (inr cp3, w3) ->
     (returncode cp3 = 0 ->
      _try_merge_base st
        = (Ok (parse_name_lines (stdout cp3)),
           mk_state w3 (tr ++ [EvRun diff None]))) /\
     (returncode cp3 <> 0 ->
      exists e,
        _try_merge_base st = (Raise e, mk_state w3 (tr ++ [EvRun diff None]))
        /\ is_class CalledProcessError e = true)).
Proof.
  intros E1 E2 tr diff.
  assert (Hhead :
            _try_merge_base st
            = (if returncode cp2 =? 0
               then result <- subprocess_run diff None true ;;
                    ret (parse_name_lines (stdout result))
               else raise (mk_exn OtherException
                                  "Could not determine merge-base"))
                (mk_state w2 tr)).
  { unfold _try_merge_base, subprocess_run.
    unfold bind at 1. unfold log at 1, emit at 1. cbv iota beta.
    unfold bind at 1.
    rewrite (subprocess_run_completed _ _ _ false _ cp1 w1)
      by (done || by left).
    unfold bind at 1.
    rewrite (subprocess_run_completed _ _ _ false _ cp2 w2)
      by (done || by left).
    cbn [st_world st_trace]. rewrite <- !app_assoc. reflexivity. }
  rewrite Hhead. clear Hhead. split.
  - intros Hrc. apply Z.eqb_neq in Hrc. by rewrite Hrc.
  - intros Hrc. rewrite Hrc. cbn [Z.eqb]. intros cp3 w3 E3.
    unfold subprocess_run, bind. split.
    + intros Hrc3.
      by rewrite (subprocess_run_completed _ _ _ true _ cp3 w3)
        by (done || by right).
    + intros Hrc3. eexists.
      rewrite (subprocess_run_nonzero _ _ _ _ cp3 w3) by done. done.
Qed.

(** X4. Without a pull-request number or without a repository name, unset
    or empty, the hosting-platform strategy raises "Missing GitHub
    environment variables" and starts no process. *)
Theorem github_api_needs_both_variables st :
  opt_truthy (environ (st_world st) !! "GITHUB_EVENT_NUMBER") = false \/
  opt_truthy (environ (st_world st) !! "GITHUB_REPOSITORY") = false ->
  _try_github_api st
    = (Raise (mk_exn OtherException "Missing GitHub environment variables"),
       mk_state (st_world st)
         (st_trace st
            ++ [EvLog DEBUG "Strategy 4: Using GitHub API to get changed files"])).
Proof.
  intros Hmissing. unfold _try_github_api, bind, log, emit, environ_get,
    get_world, ret. simpl.
  destruct Hmissing as [-> | ->]; [reflexivity|].
  by rewrite orb_true_r.
Qed.

(** X5. With both variables set, the hosting-platform strategy asks [gh]
    for [repos/<repo>/pulls/<number>/files] and nothing else. *)
Theorem github_api_query st pr_number repo :
  environ (st_world st) !! "GITHUB_EVENT_NUMBER" = Some pr_number ->
  environ (st_world st) !! "GITHUB_REPOSITORY" = Some repo ->
  pr_number <> "" -> repo <> "" ->
  st_trace (snd (_try_github_api st))
    = st_trace st
        ++ [EvLog DEBUG "Strategy 4: Using GitHub API to get changed files";
            EvRun ["gh"; "api";
                   "repos/" +:+ repo +:+ "/pulls/" +:+ pr_number +:+ "/files";
                   "--jq"; ".[].filename"] None].
Proof.
  intros En Er Hn Hr. unfold _try_github_api, bind, log, emit, environ_get,
    get_world, ret. simpl. rewrite En, Er. simpl.
  destruct pr_number as [|a n]; [done|]. destruct repo as [|b r]; [done|].
  cbn [PyStr.truthy PyStr.is_empty negb orb default].
  unfold subprocess_run, subprocess_run_with, bind, emit, get_world, put_world.
  simpl.
  match goal with
  | |- context [spawn ?c ?i ?e ?w] => destruct (spawn c i e w) as [[e0|cp] w']
  end; simpl.
  - by rewrite <- app_assoc.
  - destruct (negb (returncode cp =? 0)); simpl; by rewrite <- app_assoc.
Qed.

(** X6. When HEAD has at most one parent the merge-commit strategy raises
    "HEAD is not a merge commit" after the one [git show]; it runs no
    [git diff-tree]. *)
Theorem merge_commit_needs_two_parents st cp w1 :
  spawn ["git"; "show"; "--format=%P"; "-s"; "HEAD"] None None (st_world st)
    = (inr cp, w1) ->
  returncode cp = 0 ->
  (length (PyStr.split_ws (PyStr.strip (stdout cp))) <= 1)%nat ->
  _try_merge_commit st
    = (Raise (mk_exn OtherException "HEAD is not a merge commit"),
       mk_state w1
         (st_trace st
            ++ [EvLog DEBUG "Strategy 5: Checking if HEAD is a merge commit";
                EvRun ["git"; "show"; "--format=%P"; "-s"; "HEAD"] None])).
Proof.
  intros E Hrc Hparents. unfold _try_merge_commit, subprocess_run.
  unfold bind at 1. unfold log at 1, emit at 1. cbv iota beta.
  unfold bind at 1.
  rewrite (subprocess_run_completed _ _ _ true _ cp w1) by (done || by right).
  cbn [st_world st_trace]. rewrite <- app_assoc. cbn [app].
  destruct (Nat.ltb_spec 1 (length (PyStr.split_ws (PyStr.strip (stdout cp)))));
    [lia | reflexivity].
Qed.

End StrategyFacts.

(* ===================================================================== *)
(** ** Further properties: how calls end *)
(* ===================================================================== *)

Section OutcomeFacts.
Context `{Host}.

Lemma safe_try_except {A} (P : A -> Prop) body h :
  safe P body -> (forall e, safe P (h e)) -> safe P (try_except body h).
Proof.
  intros Hb Hh st. specialize (Hb st). unfold try_except.
  destruct (body st) as [[a|e|c] st']; simpl in *; [done| |done].
  apply Hh.
Qed.

Lemma safe_try_except_class {A} (P : A -> Prop) cls body h :
  safe P body -> (forall e, safe P (h e)) ->
  safe P (try_except_class cls body h).
Proof.
  intros Hb Hh st. specialize (Hb st). unfold try_except_class.
  destruct (body st) as [[a|e|c] st']; simpl in *; [done| |done].
  destruct (is_class cls e); [apply Hh | done].
Qed.

Lemma safe_try_finally {A} (P : A -> Prop) body c :
  safe P body -> safe (fun _ => True) c -> safe P (try_finally body c).
Proof.
  intros Hb Hc st. specialize (Hb st). unfold try_finally.
  destruct (body st) as [r st']. specialize (Hc st').
  destruct (c st') as [[u|e|x] st'']; simpl in *; done.
Qed.

Lemma safe_true {A} (P : A -> Prop) m :
  safe P m -> safe (fun _ => True) m.
Proof. intros Hm st. specialize (Hm st). by destruct (fst (m st)). Qed.

Lemma total_ret {A} (P : A -> Prop) a : P a -> total P (ret a).
Proof. intros Ha st. by exists a, st. Qed.

Lemma total_try_except {A} (P : A -> Prop) body h :
  safe P body -> (forall e, total P (h e)) -> total P (try_except body h).
Proof.
  intros Hb Hh st. specialize (Hb st). unfold try_except.
  destruct (body st) as [[a|e|c] st']; simpl in *; [|apply Hh|done].
  by exists a, st'.
Qed.

Lemma total_try_finally {A} (P : A -> Prop) (Q : unit -> Prop) body c :
  total P body -> total Q c -> total P (try_finally body c).
Proof.
  intros Hb Hc st. destruct (Hb st) as (a & st' & E & Ha).
  destruct (Hc st') as (u & st'' & E' & _).
  exists a, st''. unfold try_finally. by rewrite E, E'.
Qed.

Lemma safe_path_exists p : safe (fun _ => True) (path_exists p).
Proof. by intros st. Qed.

Lemma safe_read_text p : safe (fun _ => True) (read_text p).
Proof.
  intros st. unfold read_text, bind, get_world. simpl.
  destruct (fs (st_world st) !! p) as [f|]; [|done].
  by destruct (is_regular f && readable f).
Qed.

Lemma safe_write_text p text : safe (fun _ => True) (write_text p text).
Proof. by intros st. Qed.

Lemma safe_os_unlink p : safe (fun _ => True) (os_unlink p).
Proof. by intros st. Qed.

Lemma safe_named_temporary_file text :
  safe (fun _ => True) (named_temporary_file text).
Proof. by intros st. Qed.

Lemma total_cleanup p : total (fun _ => True) (AgentRunner.cleanup p).
Proof.
  intros st. unfold AgentRunner.cleanup.
  destruct p as [p|]; [|by eexists _, _].
  destruct (PyStr.truthy p); [|by eexists _, _].
  unfold bind, path_exists, get_world, ret. simpl.
  destruct (bool_decide _); by eexists _, _.
Qed.

Lemma safe_agent_env agent config model :
  safe (fun _ => True) (AgentRunner.agent_env agent config model).
Proof.
  intros st. unfold AgentRunner.agent_env,
    AgentRunner.setup_opencode_environment, bind, get_world.
  destruct (String.eqb agent "opencode"); [done|]. simpl.
  destruct (environ (st_world st) !! AgentRunner.env_key config); [|done].
  destruct (String.eqb agent "cursor"); [done|].
  by destruct (String.eqb agent "amp").
Qed.

Lemma safe_run_agent agent config model cmd_args p :
  safe (fun _ => True) (AgentRunner.run_agent agent config model cmd_args p).
Proof.
  unfold AgentRunner.run_agent.
  eapply safe_bind; [apply safe_agent_env|]. intros env _.
  eapply safe_bind with (Q := fun _ => True).
  - destruct (_ && _).
    + eapply safe_bind; [apply safe_read_text|]. intros f _.
      apply safe_subprocess_run_with.
    + apply safe_subprocess_run_with.
  - intros result _. destruct (returncode result =? 0); by apply safe_ret.
Qed.

(** X8. An agent that is not configured, and a command that [which] does
    not find, are answered with an error text before anything is written:
    no temporary file is created and the agent is not started. *)
Theorem execute_agent_refuses_early agent prompt model st :
  (AgentRunner.AGENT_CONFIG !! agent = None ->
   AgentRunner.execute_agent agent prompt model st
     = (Ok ("Error: Unsupported agent: " +:+ agent), st)) /\
  (forall config cp w',
      AgentRunner.AGENT_CONFIG !! agent = Some config ->
      spawn ["which"; AgentRunner.cmd config] None None (st_world st)
        = (inr cp, w') ->
      returncode cp <> 0 ->
      AgentRunner.execute_agent agent prompt model st
        = (Ok ("Error: " +:+ AgentRunner.cmd config +:+
               " not found. Please ensure it's installed or set install-agent: true"),
           mk_state w' (st_trace st
                          ++ [EvRun ["which"; AgentRunner.cmd config] None]))).
Proof.
  unfold AgentRunner.execute_agent. split.
  - by intros ->.
  - intros config cp w' -> Ew Hrc.
    unfold bind at 1, try_except_class, bind at 1, subprocess_run,
      subprocess_run_with, bind, emit, get_world, put_world. simpl.
    rewrite Ew. simpl. apply Z.eqb_neq in Hrc. by rewrite Hrc.
Qed.

End OutcomeFacts.

(* ===================================================================== *)
(** ** Further properties: how the prompt reaches the agent *)
(* ===================================================================== *)

Section DeliveryFacts.
Context `{Host}.
Import AgentRunner.

Lemma subprocess_run_with_trace cmd stdin env check st :
  st_trace (snd (subprocess_run_with cmd stdin env check st))
    = st_trace st ++ [EvRun cmd stdin].
Proof.
  unfold subprocess_run_with, bind, emit, get_world, put_world. simpl.
  destruct (spawn cmd stdin env (st_world st)) as [[e|cp] w']; simpl; [done|].
  by destruct (check && negb (returncode cp =? 0)).
Qed.

Lemma cleanup_trace p st : st_trace (snd (cleanup p st)) = st_trace st.
Proof.
  unfold cleanup. destruct p as [p|]; [|done].
  destruct (PyStr.truthy p); [|done].
  unfold bind, path_exists, get_world, ret. simpl.
  by destruct (bool_decide _).
Qed.

Lemma agent_env_pure agent config model st :
  exists env, agent_env agent config model st = (Ok env, st).
Proof.
  unfold agent_env, setup_opencode_environment, bind, get_world, ret.
  destruct (String.eqb agent "opencode"); [by eexists|]. simpl.
  destruct (environ (st_world st) !! env_key config); [|by eexists].
  destruct (String.eqb agent "cursor"); [by eexists|].
  destruct (String.eqb agent "amp"); by eexists.
Qed.

(** The handlers of [execute_agent] only turn the exception into text. *)
Lemma handled_state {A} (body : M A) (h : exn -> M A) st :
  (forall e st0, snd (h e st0) = st0) ->
  snd (try_except body h st) = snd (body st).
Proof.
  intros Hh. unfold try_except.
  destruct (body st) as [[a|e|c] st']; simpl; [done| |done]. apply Hh.
Qed.

Lemma agent_call_trace agent config model cmd_args p stdin st :
  (forall env,
      (if path_truthy p && String.eqb agent "cursor" then
         f <- read_text (default "" p) ;;
         subprocess_run_with cmd_args (Some f) (Some env) false
       else subprocess_run_with cmd_args None (Some env) false) st
      = subprocess_run_with cmd_args stdin (Some env) false st) ->
  st_trace
    (snd (try_finally
            (try_except
               (run_agent agent config model cmd_args p)
               (fun e =>
                  if is_class TimeoutExpired e then
                    ret "Error: Agent execution timed out after 600 seconds"
                  else
                    ret ("Error: Failed to execute " +:+ agent +:+ ": "
                         +:+ str_exn e)))
            (cleanup p) st))
    = st_trace st ++ [EvRun cmd_args stdin].
Proof.
  intros Hcall. rewrite try_finally_state, cleanup_trace, handled_state.
  - unfold run_agent. destruct (agent_env_pure agent config model st)
      as [env Eenv].
    unfold bind at 1. rewrite Eenv. unfold bind at 1. rewrite (Hcall env).
    pose proof (subprocess_run_with_trace cmd_args stdin (Some env) false st)
      as Htr.
    destruct (subprocess_run_with cmd_args stdin (Some env) false st)
      as [[result|e|c] st'] eqn:E; simpl in *; [|done|done].
    by destruct (returncode result =? 0).
  - intros e st0. by destruct (is_class TimeoutExpired e).
Qed.

Lemma last_after_options (l pre : list string) x :
  last (l ++ pre ++ [x]) = Some x.
Proof. by rewrite app_assoc, last_snoc. Qed.

Lemma build_command_argument agent config prompt model p :
  AGENT_CONFIG !! agent = Some config ->
  agent <> "cursor" ->
  exists cmd_args,
    build_command agent config prompt model p = (cmd_args, None) /\
    head cmd_args = Some (cmd config) /\
    last cmd_args = Some prompt.
Proof.
  intros Hcfg Hne. apply config_known in Hcfg.
  repeat (apply elem_of_cons in Hcfg as [->|Hcfg];
          [first [ done
                 | eexists; split; [reflexivity|]; split; [reflexivity|];
                   first [ apply (last_after_options (cmd config :: args config)
                                    ["--model"; model; "-p"])
                         | apply (last_after_options (cmd config :: args config)
                                    ["-m"; model; "-p"])
                         | apply (last_after_options (cmd config :: args config)
                                    ["-m"; model])
                         | apply (last_after_options (cmd config :: args config)
                                    ["--model"; model])
                         | apply (last_after_options (cmd config :: args config)
                                    []) ] ]
          |]).
  by apply elem_of_nil in Hcfg.
Qed.

(** X9. For cursor, once [which] has found the command and the temporary
    file has a name, the agent is started exactly once, with the model
    option on its command line and the whole prompt, unchanged, on its
    standard input. *)
Theorem cursor_prompt_on_stdin prompt model st cp st1 :
  subprocess_run ["which"; "cursor-agent"] None true st = (Ok cp, st1) ->
  PyStr.truthy (mktemp (st_world st1)) = true ->
  st_trace (snd (execute_agent "cursor" prompt model st))
    = st_trace st1
        ++ [EvRun ["cursor-agent"; "-p"; "--output-format"; "text"; "--force";
                   "--model"; model] (Some prompt)].
Proof.
  intros Hwhich Hname. unfold execute_agent.
  change (AGENT_CONFIG !! "cursor")
    with (Some (mk_config "cursor-agent" "CURSOR_API_KEY" "gpt-5"
                          ["-p"; "--output-format"; "text"; "--force"])).
  cbn [cmd]. unfold bind at 1. rewrite (which_found _ _ _ _ Hwhich).
  cbn [negb]. unfold bind at 1. rewrite named_temporary_file_spec.
  change (build_command "cursor" ?c prompt model ?p)
    with (cmd c :: args c ++ ["--model"; model], Some p).
  cbv beta iota.
  rewrite (agent_call_trace _ _ _ _ _ (Some prompt)); [reflexivity|].
  intros env. unfold path_truthy. rewrite Hname, String.eqb_refl.
  cbn [andb]. unfold bind at 1, read_text. unfold bind at 1, get_world.
  cbn [st_world fs default from_option id]. rewrite lookup_insert_eq.
  reflexivity.
Qed.

(** X10. For every other configured agent, once [which] has found the
    command, the agent is started exactly once, with nothing on its
    standard input, its command first and the whole prompt, unchanged, as
    the last argument. *)
Theorem other_agents_prompt_as_argument agent config prompt model st cp st1 :
  AGENT_CONFIG !! agent = Some config ->
  agent <> "cursor" ->
  subprocess_run ["which"; cmd config] None true st = (Ok cp, st1) ->
  exists cmd_args,
    st_trace (snd (execute_agent agent prompt model st))
      = st_trace st1 ++ [EvRun cmd_args None] /\
    head cmd_args = Some (cmd config) /\
    last cmd_args = Some prompt.
Proof.
  intros Hcfg Hne Hwhich. unfold execute_agent. rewrite Hcfg.
  unfold bind at 1. rewrite (which_found _ _ _ _ Hwhich).
  cbn [negb]. unfold bind at 1. rewrite named_temporary_file_spec.
  destruct (build_command_argument agent config prompt model
              (mktemp (st_world st1)) Hcfg Hne)
    as (cmd_args & -> & Hhead & Hlast).
  exists cmd_args. split; [|done].
  by rewrite (agent_call_trace _ _ _ _ _ None).
Qed.

(** X7. For every configured agent but cursor, once [which] has found the
    command and the prompt is in its temporary file, no way in which the
    agent's process can end makes [execute_agent] raise or exit.  A
    timeout, any other exception of [subprocess.run] and a non-zero return
    code each come back as the error text of their case, the return code
    and the standard error output included; a zero return code gives the
    stripped standard output. *)
Theorem agent_outcome_becomes_text agent config prompt model st cp st1 p st2 :
  AGENT_CONFIG !! agent = Some config ->
  agent <> "cursor" ->
  subprocess_run ["which"; cmd config] None true st = (Ok cp, st1) ->
  named_temporary_file prompt st1 = (Ok p, st2) ->
  exists cmd_args env,
    build_command agent config prompt model p = (cmd_args, None) /\
    agent_env agent config model st2 = (Ok env, st2) /\
    forall o w3,
      spawn cmd_args None (Some env) (st_world st2) = (o, w3) ->
      fst (execute_agent agent prompt model st)
      = Ok match o with
           | inl e =>
               if is_class TimeoutExpired e
               then "Error: Agent execution timed out after 600 seconds"
               else "Error: Failed to execute " +:+ agent +:+ ": "
                      +:+ str_exn e
           | inr finished =>
               if returncode finished =? 0 then PyStr.strip (stdout finished)
               else if PyStr.truthy (stderr finished)
               then "Error: Agent execution failed with return code "
                      +:+ pretty (returncode finished) +:+ ": "
                      +:+ stderr finished
               else "Error: Agent execution failed with return code "
                      +:+ pretty (returncode finished)
           end.
Proof.
  intros Hcfg Hne Hwhich Htmp.
  destruct (build_command_argument agent config prompt model p Hcfg Hne)
    as (cmd_args & Hcmd & _ & _).
  destruct (agent_env_pure agent config model st2) as [env Henv].
  exists cmd_args, env. split; [exact Hcmd|]. split; [exact Henv|].
  intros o w3 Hspawn.
  unfold execute_agent. rewrite Hcfg.
  unfold bind at 1. rewrite (which_found _ _ _ _ Hwhich).
  cbn [negb]. unfold bind at 1. rewrite Htmp, Hcmd.
  unfold try_finally, try_except, run_agent.
  unfold bind at 1. rewrite Henv.
  cbn [path_truthy andb].
  unfold bind at 1, subprocess_run_with.
  unfold bind at 1, emit. unfold bind at 1, get_world.
  cbn [st_world]. rewrite Hspawn.
  destruct o as [e | finished]; unfold bind, put_world, raise, ret, cleanup;
    cbn -[is_class].
  - by destruct (is_class TimeoutExpired e).
  - destruct (returncode finished =? 0); [done|].
    by destruct (PyStr.truthy (stderr finished)).
Qed.

End DeliveryFacts.

(* ===================================================================== *)
(** ** Further properties: the loops of main *)
(* ===================================================================== *)

Section LoopFacts.
Context `{Host}.

Lemma bind_ok_inv {A B} (m : M A) (k : A -> M B) st b st' :
  bind m k st = (Ok b, st') ->
  exists a st1, m st = (Ok a, st1) /\ k a st1 = (Ok b, st').
Proof.
  unfold bind. destruct (m st) as [[a|e|c] st1]; try discriminate.
  intros E. by exists a, st1.
Qed.

Lemma add_result_shape (self : ResultManager.t) rule_name output :
  exists stored,
    ResultManager.add_result self rule_name output
      = self ++ [(rule_name, stored)] /\ stored <> "".
Proof.
  unfold ResultManager.add_result. destruct output as [|c output].
  - by eexists.
  - exists (String c output). split; [|done].
    cbn [PyStr.truthy PyStr.is_empty negb orb]. by destruct (_ <? _)%nat.
Qed.

Lemma safe_cleanup p : safe (fun _ => True) (AgentRunner.cleanup p).
Proof.
  intros st. destruct (total_cleanup p st) as (u & st' & E & _). by rewrite E.
Qed.

Lemma safe_execute_agent agent prompt model :
  safe (fun _ => True) (AgentRunner.execute_agent agent prompt model).
Proof.
  unfold AgentRunner.execute_agent.
  destruct (AgentRunner.AGENT_CONFIG !! agent) as [config|]; [|by apply safe_ret].
  eapply safe_bind with (Q := fun _ => True).
  - apply safe_try_except_class; [|intros e; by apply safe_ret].
    eapply safe_bind; [apply safe_subprocess_run|]. intros; by apply safe_ret.
  - intros found _. destruct (negb found); [by apply safe_ret|].
    eapply safe_bind; [apply safe_named_temporary_file|]. intros p _.
    destruct (AgentRunner.build_command agent config prompt model p)
      as [cmd_args tp].
    apply safe_try_finally; [|apply safe_cleanup].
    apply safe_try_except; [apply safe_run_agent|].
    intros e. destruct (is_class TimeoutExpired e); by apply safe_ret.
Qed.

Lemma safe_load_rule_prompt self rule :
  safe (fun _ => True) (PromptBuilder.load_rule_prompt self rule).
Proof.
  unfold PromptBuilder.load_rule_prompt.
  eapply safe_bind; [apply safe_path_exists|]. intros ex _.
  destruct (negb ex); [|apply safe_read_text].
  eapply safe_bind; [apply safe_get_world|]. intros; apply safe_raise.
Qed.

Lemma safe_process_file file_path :
  safe (fun _ => True) (CustomFileProcessor.process_file file_path).
Proof.
  unfold CustomFileProcessor.process_file.
  eapply safe_bind with (Q := fun _ => True); [by intros st|]. intros p _.
  eapply safe_bind with (Q := fun _ => True).
  - intros st. unfold CustomFileProcessor.validate_file, bind, get_world.
    simpl. destruct (fs (st_world st) !! p) as [f|]; [|done].
    destruct (negb (is_regular f)); [done|].
    destruct (negb (readable f)); [done|].
    by destruct (1048576 <? st_size f).
  - intros ok _. destruct (negb ok); [apply safe_raise|].
    eapply safe_bind; [apply safe_read_text|]. intros; by apply safe_ret.
Qed.

Lemma one_more_add_result rm name output :
  one_more rm name (ResultManager.add_result rm name output).
Proof.
  destruct (add_result_shape rm name output) as (stored & E & Hne).
  by exists stored.
Qed.

Lemma safe_rule_body r rm rule :
  safe (one_more rm rule) (rule_body r rm rule).
Proof.
  unfold rule_body.
  eapply safe_bind; [apply safe_load_rule_prompt|]. intros rule_prompt _.
  eapply safe_bind; [apply safe_execute_agent|]. intros output _.
  apply safe_ret, one_more_add_result.
Qed.

Lemma process_rule_outcome r rm rule st :
  match fst (process_rule r rm rule st) with
  | Ok rm' =>
      if PyStr.truthy rule then one_more rm rule rm' else rm' = rm
  | Raise _ => False
  | Exit c => c = 1
  end.
Proof.
  unfold process_rule. destruct (PyStr.truthy rule); [|reflexivity].
  cbn [negb]. unfold try_except.
  pose proof (safe_rule_body r rm rule st) as Hb.
  destruct (rule_body r rm rule st) as [[rm'|e|c] st']; cbn -[is_class] in *;
    [done| |done].
  destruct (is_class FileNotFoundError e); cbn; [reflexivity|].
  apply one_more_add_result.
Qed.

Lemma rules_loop_spec r rules rm st :
  match fst (for_each (process_rule r) rules rm st) with
  | Ok rm' =>
      exists added,
        rm' = rm ++ added /\
        map fst added = List.filter PyStr.truthy rules /\
        Forall (fun rec => snd rec <> "") added
  | Raise _ => False
  | Exit c => c = 1
  end.
Proof.
  revert rm st. induction rules as [|rule rules IH]; intros rm st.
  - exists []. by rewrite app_nil_r.
  - cbn [for_each]. unfold bind.
    pose proof (process_rule_outcome r rm rule st) as Hone.
    destruct (process_rule r rm rule st) as [[rm1|e|c] st1]; simpl in Hone;
      [|done|done].
    specialize (IH rm1 st1).
    destruct (fst (for_each (process_rule r) rules rm1 st1))
      as [rm'|e|c]; [|done|done].
    destruct IH as (added & -> & Hnames & Hout).
    cbn [List.filter]. destruct (PyStr.truthy rule).
    + destruct Hone as (out & -> & Hne).
      exists ((rule, out) :: added). rewrite <- app_assoc.
      split; [reflexivity|]. split; [|by constructor].
      cbn [map fst]. by rewrite Hnames.
    + subst rm1. by exists added.
Qed.

Lemma process_custom_file_total r rm custom_file :
  total (fun rm' =>
           if PyStr.truthy custom_file
           then exists name, one_more rm name rm'
           else rm' = rm)
        (process_custom_file r rm custom_file).
Proof.
  unfold process_custom_file. destruct (PyStr.truthy custom_file);
    [|by apply total_ret].
  cbn [negb]. apply total_try_except.
  - eapply safe_bind; [apply safe_process_file|]. intros [content name] _.
    eapply safe_bind; [apply safe_execute_agent|]. intros output _.
    apply safe_ret. exists name. apply one_more_add_result.
  - intros e. apply total_ret. eexists. apply one_more_add_result.
Qed.

Lemma custom_files_loop_spec r custom_files rm st :
  exists added st',
    for_each (process_custom_file r) custom_files rm st
      = (Ok (rm ++ added), st') /\
    length added = length (List.filter PyStr.truthy custom_files) /\
    Forall (fun rec => snd rec <> "") added.
Proof.
  revert rm st. induction custom_files as [|f files IH]; intros rm st.
  - exists [], st. by rewrite app_nil_r.
  - cbn [for_each]. unfold bind.
    destruct (process_custom_file_total r rm f st) as (rm1 & st1 & E & Hone).
    rewrite E. destruct (IH rm1 st1) as (added & st' & E' & Hlen & Hout).
    rewrite E'. cbn [List.filter]. destruct (PyStr.truthy f).
    + destruct Hone as (name & out & -> & Hne).
      exists ((name, out) :: added), st'. rewrite <- app_assoc.
      split; [reflexivity|]. split; [|by constructor].
      cbn [length]. by rewrite Hlen.
    + subst rm1. by exists added, st'.
Qed.

Lemma custom_prompt_block_spec r rm custom_prompt st :
  exists added st',
    process_custom_prompt r rm custom_prompt st = (Ok (rm ++ added), st') /\
    (custom_prompt = "" -> added = [] /\ st' = st) /\
    (custom_prompt <> "" ->
     exists out, added = [("custom", out)] /\ out <> "").
Proof.
  unfold process_custom_prompt. destruct custom_prompt as [|c p].
  - exists [], st. by rewrite app_nil_r.
  - cbn [PyStr.truthy PyStr.is_empty negb].
    assert (Ht : total (one_more rm "custom")
                   (try_except
                      (let full_prompt :=
                         PromptBuilder.build_full_prompt
                           (base_prompt r) (file_context r) (String c p)
                           (comment_prompt r) in
                       output <- AgentRunner.execute_agent
                                   (run_agent_name r) full_prompt (run_model r) ;;
                       let result_manager :=
                         ResultManager.add_result rm "custom" output in
                       log INFO "Completed custom prompt" ;;;
                       ret result_manager)
                      (fun e =>
                         ret (ResultManager.add_result rm "custom"
                                ("Error: " +:+ str_exn e))))).
    { apply total_try_except.
      - eapply safe_bind; [apply safe_execute_agent|]. intros output _.
        eapply safe_bind; [apply safe_log|]. intros _ _.
        apply safe_ret, one_more_add_result.
      - intros e. apply total_ret, one_more_add_result. }
    unfold bind at 1, log, emit. cbv iota beta.
    match goal with
    | |- context [try_except ?b ?h ?s] =>
        destruct (Ht s) as (rm' & st' & E & out & -> & Hne)
    end.
    exists [("custom", out)], st'. split; [exact E|]. split; [done|].
    intros _. by exists out.
Qed.

(** X11. The rules loop lets no exception out and exits with no status but
    1; when it returns, it has added one record per non-empty rule name,
    under that name and in the order of the list, each with a non-empty
    output, after the records that were there. *)
Theorem rules_loop_outcome r rules rm st :
  never_raises (for_each (process_rule r) rules rm) /\
  exits_only 1 (for_each (process_rule r) rules rm) /\
  (forall rm' st',
      for_each (process_rule r) rules rm st = (Ok rm', st') ->
      exists added,
        rm' = rm ++ added /\
        map fst added = List.filter PyStr.truthy rules /\
        Forall (fun rec => snd rec <> "") added).
Proof.
  split; [|split].
  - intros st0 e E. pose proof (rules_loop_spec r rules rm st0) as Hs.
    by rewrite E in Hs.
  - intros st0 c E. pose proof (rules_loop_spec r rules rm st0) as Hs.
    by rewrite E in Hs.
  - intros rm' st' E. pose proof (rules_loop_spec r rules rm st) as Hs.
    by rewrite E in Hs.
Qed.

(** X12. The custom-files loop always returns: whatever fails for a file,
    it neither raises nor exits, and it adds exactly one record with a
    non-empty output for every non-empty entry of the list, after the
    records that were there. *)
Theorem custom_files_loop_total r custom_files rm st :
  exists added st',
    for_each (process_custom_file r) custom_files rm st
      = (Ok (rm ++ added), st') /\
    length added = length (List.filter PyStr.truthy custom_files) /\
    Forall (fun rec => snd rec <> "") added.
Proof.
  revert rm st. induction custom_files as [|f files IH]; intros rm st.
  - exists [], st. by rewrite app_nil_r.
  - cbn [for_each]. unfold bind.
    destruct (process_custom_file_total r rm f st) as (rm1 & st1 & E & Hone).
    rewrite E. destruct (IH rm1 st1) as (added & st' & E' & Hlen & Hout).
    rewrite E'. cbn [List.filter]. destruct (PyStr.truthy f).
    + destruct Hone as (name & out & -> & Hne).
      exists ((name, out) :: added), st'. rewrite <- app_assoc.
      split; [reflexivity|]. split; [|by constructor].
      cbn [length]. by rewrite Hlen.
    + subst rm1. by exists added, st'.
Qed.

(** X13. The custom-prompt block always returns: an empty prompt adds
    nothing and changes nothing, any other prompt adds exactly one record,
    named "custom", with a non-empty output, whatever the agent call did. *)
Theorem custom_prompt_block_total r rm custom_prompt st :
  exists added st',
    process_custom_prompt r rm custom_prompt st = (Ok (rm ++ added), st') /\
    (custom_prompt = "" -> added = [] /\ st' = st) /\
    (custom_prompt <> "" ->
     exists out, added = [("custom", out)] /\ out <> "").
Proof.
  unfold process_custom_prompt. destruct custom_prompt as [|c p].
  - exists [], st. by rewrite app_nil_r.
  - cbn [PyStr.truthy PyStr.is_empty negb].
    assert (Ht : total (one_more rm "custom")
                   (try_except
                      (let full_prompt :=
                         PromptBuilder.build_full_prompt
                           (base_prompt r) (file_context r) (String c p)
                           (comment_prompt r) in
                       output <- AgentRunner.execute_agent
                                   (run_agent_name r) full_prompt (run_model r) ;;
                       let result_manager :=
                         ResultManager.add_result rm "custom" output in
                       log INFO "Completed custom prompt" ;;;
                       ret result_manager)
                      (fun e =>
                         ret (ResultManager.add_result rm "custom"
                                ("Error: " +:+ str_exn e))))).
    { apply total_try_except.
      - eapply safe_bind; [apply safe_execute_agent|]. intros output _.
        eapply safe_bind; [apply safe_log|]. intros _ _.
        apply safe_ret, one_more_add_result.
      - intros e. apply total_ret, one_more_add_result. }
    unfold bind at 1, log, emit. cbv iota beta.
    match goal with
    | |- context [try_except ?b ?h ?s] =>
        destruct (Ht s) as (rm' & st' & E & out & -> & Hne)
    end.
    exists [("custom", out)], st'. split; [exact E|]. split; [done|].
    intros _. by exists out.
Qed.

End LoopFacts.

(* ===================================================================== *)
(** ** Further properties: custom files and the agent setup *)
(* ===================================================================== *)

Section FileFacts.
Context `{Host}.

Lemma validate_file_rejects p st :
  ~ acceptable (st_world st) p ->
  CustomFileProcessor.validate_file p st = (Ok false, st).
Proof.
  intros Hno. unfold CustomFileProcessor.validate_file, bind, get_world, ret.
  simpl. destruct (fs (st_world st) !! p) as [f|] eqn:L; [|done].
  destruct (is_regular f) eqn:Hr; [|done].
  destruct (readable f) eqn:Hd; [|done]. simpl.
  destruct (Z.ltb_spec 1048576 (st_size f)); [done|].
  exfalso. apply Hno. by exists f.
Qed.

(** X14. [validate_file] returns [True] exactly for a path that exists,
    is a regular file, is readable and holds at most 1048576 bytes, and
    it changes nothing, whatever its answer. *)
Theorem validate_file_accepts p st :
  (fst (CustomFileProcessor.validate_file p st) = Ok true
   <-> acceptable (st_world st) p) /\
  snd (CustomFileProcessor.validate_file p st) = st.
Proof.
  unfold CustomFileProcessor.validate_file, bind, get_world, ret, acceptable.
  simpl. destruct (fs (st_world st) !! p) as [f|] eqn:L.
  - destruct (is_regular f) eqn:Hr; simpl.
    + destruct (readable f) eqn:Hd; simpl.
      * destruct (Z.ltb_spec 1048576 (st_size f)); simpl.
        -- split; [|done]. split; [done|].
           intros (f' & [= <-] & _ & _ & Hsz). lia.
        -- split; [|done]. split; [|done]. intros _. by exists f.
      * split; [|done]. split; [done|].
        intros (f' & [= <-] & _ & Hd' & _). congruence.
    + split; [|done]. split; [done|].
      intros (f' & [= <-] & Hr' & _). congruence.
  - split; [|done]. split; [done|]. by intros (f' & [=] & _).
Qed.

Lemma add_result_nonempty (rm : ResultManager.t) name output :
  output <> "" ->
  ResultManager.add_result rm name output = rm ++ [(name, output)].
Proof.
  intros Hne. unfold ResultManager.add_result.
  destruct output as [|c output]; [done|].
  cbn [PyStr.truthy PyStr.is_empty negb orb]. by destruct (_ <? _)%nat.
Qed.

(** X15. A custom file that does not pass validation costs one record and
    nothing else: the loop body records "Error: Custom file validation
    failed for <path>" under the stem of the path as it was given, reads no
    file, starts no process and leaves the state as it was. *)
Theorem invalid_custom_file_is_recorded r rm custom_file st p :
  PyStr.truthy custom_file = true ->
  fst (CustomFileProcessor.resolve_path custom_file st) = Ok p ->
  ~ acceptable (st_world st) p ->
  process_custom_file r rm custom_file st
    = (Ok (rm ++ [(path_stem custom_file,
                   "Error: Custom file validation failed for "
                     +:+ custom_file)]),
       st).
Proof.
  intros Ht Hp Hno.
  assert (Hfile : CustomFileProcessor.process_file custom_file st
                  = (Raise (mk_exn ValueError
                              ("Custom file validation failed for "
                                 +:+ custom_file)), st)).
  { unfold CustomFileProcessor.process_file,
      CustomFileProcessor.resolve_path, bind, get_world, ret in *.
    cbn -[CustomFileProcessor.validate_file] in *. injection Hp as <-.
    by rewrite (validate_file_rejects _ _ Hno). }
  unfold process_custom_file. rewrite Ht. cbn [negb].
  unfold try_except, bind. rewrite Hfile. unfold ret.
  cbn [str_exn exn_msg]. by rewrite add_result_nonempty.
Qed.

(** X16. For a configured agent [setup_agent_environment] returns the value
    of MODEL when that variable is set, even to the empty string, and the
    agent's default model otherwise.  It logs nothing and touches no file;
    for cursor it puts the cursor directory in front of PATH, for every
    other agent it changes nothing at all. *)
Theorem agent_model_selection agent config st :
  AgentRunner.AGENT_CONFIG !! agent = Some config ->
  exists st',
    AgentRunner.setup_agent_environment agent st
      = (Ok (default (AgentRunner.default_model config)
                     (environ (st_world st) !! "MODEL")), st') /\
    st_trace st' = st_trace st /\
    fs (st_world st') = fs (st_world st) /\
    (agent <> "cursor" -> st' = st) /\
    (agent = "cursor" ->
     environ (st_world st')
       = <["PATH" := cursor_bin +:+ ":"
                       +:+ default "" (environ (st_world st) !! "PATH")]>
           (environ (st_world st))).
Proof.
  intros Hcfg. unfold AgentRunner.setup_agent_environment. rewrite Hcfg.
  destruct (String.eqb_spec agent "cursor") as [-> | Hne].
  - eexists. unfold bind, get_world, put_world, ret. cbn [st_world environ].
    rewrite lookup_insert_ne by done. repeat split; done.
  - exists st. unfold bind, get_world, ret. repeat split; done.
Qed.

End FileFacts.

(* ===================================================================== *)
(** ** Further properties: main from start to end *)
(* ===================================================================== *)

Section WholeRunFacts.
Context `{Host}.




Lemma exits_only_bind {A B} code (m : M A) (k : A -> M B) :
  exits_only code m -> (forall a, exits_only code (k a)) ->
  exits_only code (bind m k).
Proof.
  intros Hm Hk st c. specialize (Hm st c). unfold bind.
  destruct (m st) as [[a|e|x] st1] eqn:E; simpl in *; [apply Hk|done|].
  intros [= <-]. by apply Hm.
Qed.

Lemma exits_only_safe {A} code (P : A -> Prop) (m : M A) :
  safe P m -> exits_only code m.
Proof. intros Hm st c E. specialize (Hm st). by rewrite E in Hm. Qed.

Lemma exits_only_total {A} code (P : A -> Prop) (m : M A) :
  total P m -> exits_only code m.
Proof.
  intros Hm st c E. destruct (Hm st) as (a & st' & E' & _).
  by rewrite E' in E.
Qed.

Lemma exits_only_validate_inputs args : exits_only 1 (validate_inputs args).
Proof.
  intros st c. unfold validate_inputs, bind, log, emit.
  destruct (_ && _); simpl; [by intros [= <-]|].
  destruct (_ <? _)%nat; simpl; [by intros [= <-] | done].
Qed.

Lemma safe_get_file_context scope :
  safe (fun _ => True) (GitAnalyzer.get_file_context scope).
Proof.
  intros st. unfold GitAnalyzer.get_file_context.
  destruct (String.eqb scope "all"); [done|]. unfold bind.
  destruct (get_changed_files_total_lines st) as (files & st' & E & _).
  rewrite E. by destruct (GitAnalyzer.nonempty files).
Qed.

Lemma safe_setup_agent_environment agent :
  safe (fun _ => True) (AgentRunner.setup_agent_environment agent).
Proof.
  intros st. unfold AgentRunner.setup_agent_environment.
  destruct (AgentRunner.AGENT_CONFIG !! agent); [|done].
  by destruct (String.eqb agent "cursor").
Qed.

Lemma safe_load_base_prompt self :
  safe (fun _ => True) (PromptBuilder.load_base_prompt self).
Proof.
  unfold PromptBuilder.load_base_prompt.
  eapply safe_bind; [apply safe_path_exists|]. intros ex _.
  destruct (negb ex); [apply safe_raise|].
  eapply safe_bind; [apply safe_read_text|]. intros content _.
  eapply safe_bind; [apply safe_get_world|]. intros; by apply safe_ret.
Qed.

Lemma safe_load_comment_prompt self :
  safe (fun _ => True) (PromptBuilder.load_comment_prompt self).
Proof.
  unfold PromptBuilder.load_comment_prompt.
  eapply safe_bind; [apply safe_path_exists|]. intros ex _.
  destruct (negb ex); [apply safe_raise | apply safe_read_text].
Qed.

Lemma exits_only_load_prompts self :
  exits_only 1
    (try_except_class FileNotFoundError
       (base_prompt <- PromptBuilder.load_base_prompt self ;;
        comment_prompt <- PromptBuilder.load_comment_prompt self ;;
        ret (base_prompt, comment_prompt))
       (fun _ => sys_exit 1)).
Proof.
  intros st c. unfold try_except_class.
  match goal with
  | |- context [bind ?m ?k st] =>
      assert (Hs : safe (fun _ => True) (bind m k))
  end.
  { eapply safe_bind; [apply safe_load_base_prompt|]. intros b _.
    eapply safe_bind; [apply safe_load_comment_prompt|].
    intros; by apply safe_ret. }
  specialize (Hs st).
  match goal with
  | |- context [bind ?m ?k st] => destruct (bind m k st) as [[a|e|x] st1]
  end; cbn -[is_class] in *; [done| |done].
  destruct (is_class FileNotFoundError e); cbn; [by intros [= <-] | done].
Qed.

Lemma exits_only_main_body args action_dir :
  exits_only 1 (main_body args action_dir).
Proof.
  unfold main_body.
  apply exits_only_bind;
    [eapply exits_only_safe, safe_setup_agent_environment|]. intros model.
  apply exits_only_bind;
    [eapply exits_only_safe, safe_get_file_context|]. intros fc.
  apply exits_only_bind; [apply exits_only_load_prompts|]. intros prompts.
  apply exits_only_bind.
  { intros st c E. pose proof (rules_loop_spec
      (mk_run (agent args) model (PromptBuilder.__init__ action_dir) fc
              (fst prompts) (snd prompts))
      (parse_input_list (rules args)) ResultManager.__init__ st) as Hs.
    by rewrite E in Hs. }
  intros rm1. apply exits_only_bind.
  { intros st c E. destruct (custom_files_loop_spec
      (mk_run (agent args) model (PromptBuilder.__init__ action_dir) fc
              (fst prompts) (snd prompts))
      (parse_input_list (custom_files args)) rm1 st)
      as (added & st' & E' & _).
    by rewrite E' in E. }
  intros rm2. apply exits_only_bind.
  { intros st c E. destruct (custom_prompt_block_spec
      (mk_run (agent args) model (PromptBuilder.__init__ action_dir) fc
              (fst prompts) (snd prompts))
      rm2 (custom_prompt args) st) as (added & st' & E' & _).
    by rewrite E' in E. }
  intros rm3. apply exits_only_bind; [by intros st c|]. intros _.
  by intros st c.
Qed.

(** X19. The status the process ends with, for every command line and
    machine.  A command line the parser rejects ends it with status 2 and
    a request for help with status 0, in both cases before anything is
    logged or started.  Once the command line is parsed the status is 0 or
    1: the script calls [sys.exit] with 1 only, and an uncaught exception
    ends the interpreter with 1. *)
Theorem main_exit_status argv st :
  match parse_args argv with
  | UsageError => main_of_argv argv st = (Exit 2, st)
  | HelpRequested => main_of_argv argv st = (Exit 0, st)
  | Namespace args =>
      main_of_argv argv st = main args st /\
      (exit_status (fst (main_of_argv argv st)) = 0 \/
       exit_status (fst (main_of_argv argv st)) = 1)
  end.
Proof.
  unfold main_of_argv. destruct (parse_args argv) as [args | |]; [|done|done].
  split; [done|].
  assert (Hmain : exits_only 1 (main args)).
  { unfold main. apply exits_only_bind; [by intros s c|]. intros _.
    apply exits_only_bind; [by intros s c|]. intros w.
    apply exits_only_bind; [apply exits_only_validate_inputs|]. intros _.
    apply exits_only_main_body. }
  specialize (Hmain st).
  destruct (fst (main args st)) as [u|e|c]; simpl; [by left | by right |].
  right. by apply Hmain.
Qed.

(** X20. When [main] returns, the file results.json holds the serialised
    records, and these are, in this order: one record per non-empty rule
    name, under that name and in the order of the rules list; one record
    per non-empty entry of the custom-files list; and one record named
    "custom" when a custom prompt was given.  No record has an empty
    output. *)
Theorem main_results_in_order args st st' :
  main args st = (Ok tt, st') ->
  exists by_rule by_file by_prompt,
    fs (st_world st') !! "results.json"
      = Some (plain_file (json_dump (by_rule ++ by_file ++ by_prompt))) /\
    map fst by_rule = List.filter PyStr.truthy (parse_input_list (rules args)) /\
    length by_file
      = length (List.filter PyStr.truthy
                  (parse_input_list (custom_files args))) /\
    map fst by_prompt
      = (if PyStr.truthy (custom_prompt args) then ["custom"] else []) /\
    Forall (fun rec => snd rec <> "") (by_rule ++ by_file ++ by_prompt).
Proof.
  intros Hmain. unfold main in Hmain.
  apply bind_ok_inv in Hmain as (? & s0 & _ & Hmain).
  apply bind_ok_inv in Hmain as (w & s1 & _ & Hmain).
  apply bind_ok_inv in Hmain as (? & s2 & _ & Hmain).
  unfold main_body in Hmain.
  apply bind_ok_inv in Hmain as (model & s3 & _ & Hmain).
  apply bind_ok_inv in Hmain as (fc & s4 & _ & Hmain).
  apply bind_ok_inv in Hmain as (prompts & s5 & _ & Hmain).
  apply bind_ok_inv in Hmain as (rm1 & s6 & Hrules & Hmain).
  apply bind_ok_inv in Hmain as (rm2 & s7 & Hfiles & Hmain).
  apply bind_ok_inv in Hmain as (rm3 & s8 & Hprompt & Hmain).
  apply bind_ok_inv in Hmain as (? & s9 & Hsave & Hmain).
  match type of Hrules with
  | for_each (process_rule ?r) ?l ?rm ?s = _ =>
      pose proof (rules_loop_spec r l rm s) as Hs1;
      rewrite Hrules in Hs1; simpl in Hs1;
      destruct Hs1 as (by_rule & -> & Hnames & Hout1)
  end.
  match type of Hfiles with
  | for_each (process_custom_file ?r) ?l ?rm ?s = _ =>
      destruct (custom_files_loop_spec r l rm s)
        as (by_file & t7 & E7 & Hlen & Hout2);
      rewrite E7 in Hfiles; injection Hfiles as <- <-
  end.
  match type of Hprompt with
  | process_custom_prompt ?r ?rm ?p ?s = _ =>
      destruct (custom_prompt_block_spec r rm p s)
        as (by_prompt & t8 & E8 & Hnone & Hone);
      rewrite E8 in Hprompt; injection Hprompt as <- <-
  end.
  exists by_rule, by_file, by_prompt.
  unfold ResultManager.__init__ in *. cbn [app] in *.
  rewrite <- app_assoc in Hsave. split; [|split; [|split; [|split]]].
  - unfold ResultManager.save_results, write_text, bind, get_world,
      put_world, log, emit in Hsave, Hmain.
    simpl in Hsave. injection Hsave as _ <-. simpl in Hmain.
    injection Hmain as <-. simpl. apply lookup_insert_eq.
  - exact Hnames.
  - exact Hlen.
  - destruct (custom_prompt args) as [|c p]; simpl.
    + by destruct (Hnone eq_refl) as [-> _].
    + by destruct (Hone ltac:(done)) as (out & -> & _).
  - apply Forall_app. split; [exact Hout1|]. apply Forall_app.
    split; [exact Hout2|].
    destruct (custom_prompt args) as [|c p].
    + destruct (Hnone eq_refl) as [-> _]. constructor.
    + destruct (Hone ltac:(done)) as (out & -> & Hne).
      constructor; [exact Hne | constructor].
Qed.

End WholeRunFacts.

(* ===================================================================== *)
(** ** Further properties: what change detection touches *)
(* ===================================================================== *)

Section DetectionFacts.
Context `{Host}.
Import GitAnalyzer.

Lemma keeps_fs_raise {A} e : keeps_fs (raise (A:=A) e).
Proof. by intros st. Qed.

Lemma keeps_fs_emit ev : keeps_fs (emit ev).
Proof. by intros st. Qed.

Lemma keeps_fs_environ_get name : keeps_fs (environ_get name).
Proof. by intros st. Qed.

Lemma adds_only_ret {A} P (a : A) : adds_only P (ret a).
Proof. intros st. exists []. simpl. by rewrite app_nil_r. Qed.

Lemma adds_only_raise {A} P e : adds_only P (raise (A:=A) e).
Proof. intros st. exists []. simpl. by rewrite app_nil_r. Qed.

Lemma adds_only_bind {A B} P (m : M A) (k : A -> M B) :
  adds_only P m -> (forall a, adds_only P (k a)) -> adds_only P (bind m k).
Proof.
  intros Hm Hk st. destruct (Hm st) as (evs & E & Hevs). unfold bind.
  destruct (m st) as [[a|e|c] st1]; simpl in *; eauto.
  destruct (Hk a st1) as (evs' & E' & Hevs'). exists (evs ++ evs').
  rewrite E', E, app_assoc. split; [done|]. by apply Forall_app.
Qed.

Lemma adds_only_try_except {A} P (m : M A) (h : exn -> M A) :
  adds_only P m -> (forall e, adds_only P (h e)) ->
  adds_only P (try_except m h).
Proof.
  intros Hm Hh st. destruct (Hm st) as (evs & E & Hevs). unfold try_except.
  destruct (m st) as [[a|e|c] st1]; simpl in *; eauto.
  destruct (Hh e st1) as (evs' & E' & Hevs'). exists (evs ++ evs').
  rewrite E', E, app_assoc. split; [done|]. by apply Forall_app.
Qed.

Lemma adds_only_emit (P : event -> Prop) ev : P ev -> adds_only P (emit ev).
Proof. intros Hev st. exists [ev]. split; [done|]. by constructor. Qed.

Lemma adds_only_environ_get P name : adds_only P (environ_get name).
Proof. intros st. exists []. simpl. by rewrite app_nil_r. Qed.

Lemma adds_only_subprocess_run (P : event -> Prop) cmd stdin check :
  P (EvRun cmd stdin) -> adds_only P (subprocess_run cmd stdin check).
Proof.
  intros Hev st. exists [EvRun cmd stdin].
  split; [apply subprocess_run_with_trace | by constructor].
Qed.

(** Walks through a strategy for a property that [ret], [raise], [bind] and
    [if] pass on. *)
Ltac walk lem_bind lem_leaf :=
  repeat first
    [ lem_leaf
    | match goal with
      | |- _ (if ?b then _ else _) => destruct b
      end
    | apply lem_bind; [|intros ?] ].

Lemma strategies_keep_fs :
  (forall c i e w, fs (snd (spawn c i e w)) = fs w) ->
  Forall keeps_fs six_strategies.
Proof.
  intros Hspawn.
  unfold six_strategies, _try_merge_base, _try_three_dot_syntax,
    _try_two_dot_syntax, _try_github_api, _try_merge_commit,
    _try_single_commit, log, subprocess_run.
  repeat constructor;
    walk (@keeps_fs_bind H)
         ltac:(first [ apply keeps_fs_ret | apply keeps_fs_raise
                     | apply keeps_fs_emit | apply keeps_fs_environ_get
                     | by apply keeps_fs_subprocess_run_with ]).
Qed.

Ltac git_or_gh_step :=
  lazymatch goal with
  | |- adds_only _ (bind _ _) => apply adds_only_bind; [|intros ?]
  | |- adds_only _ (if ?b then _ else _) => destruct b
  | |- adds_only _ (ret _) => apply adds_only_ret
  | |- adds_only _ (raise _) => apply adds_only_raise
  | |- adds_only _ (emit _) => by apply adds_only_emit
  | |- adds_only _ (environ_get _) => apply adds_only_environ_get
  | |- adds_only _ (subprocess_run _ _ _) =>
      apply adds_only_subprocess_run; eexists; first [by left | by right]
  end.

Lemma strategies_run_git_or_gh : Forall (adds_only git_or_gh) six_strategies.
Proof.
  unfold six_strategies, _try_merge_base, _try_three_dot_syntax,
    _try_two_dot_syntax, _try_github_api, _try_merge_commit,
    _try_single_commit, log.
  repeat constructor; repeat git_or_gh_step.
Qed.

Lemma try_each_keeps_fs ss :
  Forall keeps_fs ss -> keeps_fs (try_each ss).
Proof.
  induction 1 as [|s ss Hs _ IH]; simpl.
  - apply keeps_fs_bind; [apply keeps_fs_emit | intros; apply keeps_fs_ret].
  - apply keeps_fs_bind.
    + apply keeps_fs_try_except; [|intros; apply keeps_fs_ret].
      apply keeps_fs_bind; [exact Hs | intros; apply keeps_fs_ret].
    + intros [files|]; [apply keeps_fs_ret | exact IH].
Qed.

Lemma try_each_adds_only P ss :
  P (EvLog WARNING "No changed files detected with any strategy") ->
  Forall (adds_only P) ss -> adds_only P (try_each ss).
Proof.
  intros Hw. induction 1 as [|s ss Hs _ IH]; simpl.
  - apply adds_only_bind; [by apply adds_only_emit|].
    intros; apply adds_only_ret.
  - apply adds_only_bind.
    + apply adds_only_try_except; [|intros; apply adds_only_ret].
      apply adds_only_bind; [exact Hs | intros; apply adds_only_ret].
    + intros [files|]; [apply adds_only_ret | exact IH].
Qed.

Lemma get_file_context_keeps_fs scope :
  (forall c i e w, fs (snd (spawn c i e w)) = fs w) ->
  keeps_fs (get_file_context scope).
Proof.
  intros Hspawn. unfold get_file_context.
  destruct (String.eqb scope "all"); [apply keeps_fs_ret|].
  apply keeps_fs_bind.
  - unfold get_changed_files.
    apply keeps_fs_bind; [apply keeps_fs_emit|]. intros _.
    apply try_each_keeps_fs. by apply strategies_keep_fs.
  - intros files. destruct (nonempty files); apply keeps_fs_ret.
Qed.

(** X21. Change detection starts no program other than [git] and [gh]:
    every process start that [get_file_context] adds to the trace, for
    whatever scope, has one of the two as its command. *)
Theorem change_detection_runs_git_or_gh scope :
  adds_only git_or_gh (get_file_context scope).
Proof.
  unfold get_file_context.
  destruct (String.eqb scope "all"); [apply adds_only_ret|].
  apply adds_only_bind.
  - unfold get_changed_files.
    apply adds_only_bind; [by apply adds_only_emit|]. intros _.
    apply try_each_adds_only; [done | apply strategies_run_git_or_gh].
  - intros files. destruct (nonempty files); apply adds_only_ret.
Qed.

Lemma setup_agent_environment_keeps_fs agent config st :
  AgentRunner.AGENT_CONFIG !! agent = Some config ->
  exists model st',
    AgentRunner.setup_agent_environment agent st = (Ok model, st') /\
    fs (st_world st') = fs (st_world st).
Proof.
  intros Hcfg. unfold AgentRunner.setup_agent_environment. rewrite Hcfg.
  destruct (String.eqb agent "cursor"); by eexists _, _.
Qed.

Lemma load_base_prompt_state self st :
  exists r, PromptBuilder.load_base_prompt self st = (r, st) /\
    (fs (st_world st)
       !! path_join (PromptBuilder.rules_dir self) "base.prompt" = None ->
     exists e, r = Raise e /\ is_class FileNotFoundError e = true) /\
    (forall c, r <> Exit c).
Proof.
  unfold PromptBuilder.load_base_prompt, path_exists, read_text, bind,
    get_world, ret, raise. simpl.
  destruct (fs (st_world st)
              !! path_join (PromptBuilder.rules_dir self) "base.prompt")
    as [f|] eqn:L.
  - rewrite bool_decide_eq_true_2 by (by eexists). simpl. rewrite ?L.
    destruct (is_regular f && readable f); eexists;
      (split; [reflexivity|]; split; [intros [=] | done]).
  - rewrite bool_decide_eq_false_2 by (by intros [? ?]). simpl.
    eexists. split; [reflexivity|]. split; [|done]. intros _. by eexists.
Qed.

Lemma load_comment_prompt_state self st :
  exists r, PromptBuilder.load_comment_prompt self st = (r, st) /\
    (fs (st_world st)
       !! path_join (PromptBuilder.rules_dir self) "comment.prompt" = None ->
     exists e, r = Raise e /\ is_class FileNotFoundError e = true) /\
    (forall c, r <> Exit c).
Proof.
  unfold PromptBuilder.load_comment_prompt, path_exists, read_text, bind,
    get_world, ret, raise. simpl.
  destruct (fs (st_world st)
              !! path_join (PromptBuilder.rules_dir self) "comment.prompt")
    as [f|] eqn:L.
  - rewrite bool_decide_eq_true_2 by (by eexists). simpl. rewrite ?L.
    destruct (is_regular f && readable f); eexists;
      (split; [reflexivity|]; split; [intros [=] | done]).
  - rewrite bool_decide_eq_false_2 by (by intros [? ?]). simpl.
    eexists. split; [reflexivity|]. split; [|done]. intros _. by eexists.
Qed.

Lemma load_prompts_fatal self st :
  fs (st_world st)
    !! path_join (PromptBuilder.rules_dir self) "base.prompt" = None \/
  fs (st_world st)
    !! path_join (PromptBuilder.rules_dir self) "comment.prompt" = None ->
  exists r,
    try_except_class FileNotFoundError
      (base_prompt <- PromptBuilder.load_base_prompt self ;;
       comment_prompt <- PromptBuilder.load_comment_prompt self ;;
       ret (base_prompt, comment_prompt))
      (fun _ => sys_exit 1) st = (r, st) /\
    exit_status r = 1.
Proof.
  intros Hmissing. unfold try_except_class, bind.
  destruct (load_base_prompt_state self st) as (rb & -> & Hb & Hbx).
  destruct rb as [b|e|c]; [| |by destruct (Hbx c)].
  - destruct Hmissing as [Hm|Hm];
      [by destruct (Hb Hm) as (e & [=] & _)|].
    destruct (load_comment_prompt_state self st) as (rc & -> & Hc & _).
    destruct (Hc Hm) as (e & -> & ->). by eexists.
  - destruct (is_class FileNotFoundError e); by eexists.
Qed.

Lemma bind_fatal {A B} (m : M A) (k : A -> M B) st r st' :
  m st = (r, st') -> exit_status r = 1 ->
  exists r', bind m k st = (r', st') /\ exit_status r' = 1.
Proof.
  intros E Hr. unfold bind. rewrite E.
  destruct r as [a|e|c]; [done| |]; by eexists.
Qed.

(** X22. A missing base template or a missing comment template is fatal:
    for a configured agent, on a machine whose children leave the file
    system alone, the body of [main] ends with status 1 and the file
    system is as it was, so no temporary file and no results file has been
    written. *)
Theorem missing_prompt_files_are_fatal args action_dir st config :
  (forall c i e w, fs (snd (spawn c i e w)) = fs w) ->
  AgentRunner.AGENT_CONFIG !! agent args = Some config ->
  fs (st_world st)
    !! path_join (path_join action_dir "rules") "base.prompt" = None \/
  fs (st_world st)
    !! path_join (path_join action_dir "rules") "comment.prompt" = None ->
  exit_status (fst (main_body args action_dir st)) = 1 /\
  fs (st_world (snd (main_body args action_dir st))) = fs (st_world st).
Proof.
  intros Hspawn Hcfg Hmissing.
  assert (Hrun : exists r st',
             main_body args action_dir st = (r, st') /\
             exit_status r = 1 /\
             fs (st_world st') = fs (st_world st)).
  { unfold main_body.
    destruct (setup_agent_environment_keeps_fs (agent args) config st Hcfg)
      as (model & st1 & E1 & Hfs1).
    unfold bind at 1. rewrite E1.
    pose proof (get_file_context_keeps_fs (scope args) Hspawn st1) as Hfs2.
    pose proof (safe_get_file_context (scope args) st1) as Hsafe.
    unfold bind at 1.
    destruct (get_file_context (scope args) st1) as [[fc|e|c] st2];
      simpl in Hfs2, Hsafe; [| |done].
    2: { eexists _, _. split; [reflexivity|]. split; [reflexivity|].
         congruence. }
    assert (Hfs : fs (st_world st2) = fs (st_world st)) by congruence.
    rewrite <- Hfs in Hmissing. rewrite <- Hfs.
    destruct (load_prompts_fatal (PromptBuilder.__init__ action_dir) st2
                Hmissing) as (r & E & Hr).
    match goal with
    | |- context [bind ?m ?k st2] =>
        destruct (bind_fatal m k st2 r st2 E Hr) as (r' & E' & Hr')
    end.
    rewrite E'. by exists r', st2. }
  destruct Hrun as (r & st' & -> & Hr & Hfs). by split.
Qed.

End DetectionFacts.

(* ===================================================================== *)
(** ** Further worked runs *)
(* ===================================================================== *)

Section MoreRuns.
Import Scenario GitAnalyzer.

Ltac run := vm_compute; reflexivity.

(** Three lines, one of them twice and one with a blank inside. *)
Lemma two_paths_round_trip :
  parse_name_lines (name_only_output ["a.py"; "docs/read me.md"; "a.py"])
    = ["a.py"; "docs/read me.md"; "a.py"].
Proof.
  apply parse_name_lines_round_trip.
  - repeat constructor.
  - repeat constructor.
Defined.

(** The empty list literal, a blank-separated list of rules with blanks
    of several kinds, and a list with single blanks. *)
Lemma blank_separated_rules :
  @parse_input_list (scripted feature_branch) "[]" = [] /\
  Forall word
         (@parse_input_list (scripted feature_branch)
            (" security " +:+ nbsp +:+ "performance" +:+ ideographic_space)) /\
  @parse_input_list (scripted feature_branch) "security performance style"
    = ["security"; "performance"; "style"].
Proof.
  split; [|split].
  - apply (proj1 (@parse_input_list_fallback (scripted feature_branch) "[]")).
    by right.
  - apply (proj2 (@parse_input_list_fallback (scripted feature_branch)
                    (" security " +:+ nbsp +:+ "performance"
                       +:+ ideographic_space)));
      intros items; discriminate.
  - refine (proj2 (proj2 (@parse_input_list_fallback
                            (scripted feature_branch)
                            "security performance style")
                         _ _)
                  ["security"; "performance"; "style"] _ _ _).
    + intros items; discriminate.
    + intros items; discriminate.
    + repeat constructor.
    + reflexivity.
    + discriminate.
Defined.

(** A failed merge-base query, and a merge base with an empty diff. *)
Lemma merge_base_unknown_on_feature_branch :
  fst (@_try_merge_base (scripted feature_branch) (start world0))
    = Raise (mk_exn OtherException "Could not determine merge-base") /\
  fst (@_try_merge_base (scripted up_to_date) (start world0)) = Ok [].
Proof.
  split.
  - rewrite (proj1 (@merge_base_strategy_outcomes (scripted feature_branch)
                      (start world0) (mk_cp 1 "" "fatal") world0
                      (mk_cp 1 "" "fatal") world0 eq_refl eq_refl)
                   ltac:(discriminate)).
    reflexivity.
  - rewrite (proj1 (proj2 (@merge_base_strategy_outcomes (scripted up_to_date)
                             (start world0) (mk_cp 0 "" "") world0
                             (mk_cp 0 "4f2a9c1" "") world0 eq_refl eq_refl)
                          eq_refl (mk_cp 0 "" "") world0 eq_refl)
                   eq_refl).
    reflexivity.
Defined.

(** Outside a pull request [gh] is not started. *)
Lemma no_pull_request_no_query :
  ran_program "gh"
    (st_trace (snd (@_try_github_api (scripted feature_branch) (start world0))))
    = false.
Proof.
  rewrite (@github_api_needs_both_variables (scripted feature_branch)
             (start world0) ltac:(by left)).
  reflexivity.
Defined.

(** Pull request 42 of octo/demo. *)
Lemma pull_request_query :
  st_trace (snd (@_try_github_api (scripted feature_branch) (start pr_world)))
    = [EvLog DEBUG "Strategy 4: Using GitHub API to get changed files";
       EvRun ["gh"; "api"; "repos/octo/demo/pulls/42/files";
              "--jq"; ".[].filename"] None].
Proof.
  exact (@github_api_query (scripted feature_branch) (start pr_world)
           "42" "octo/demo" ltac:(run) ltac:(run)
           ltac:(discriminate) ltac:(discriminate)).
Defined.

(** A commit with one parent. *)
Lemma plain_commit_is_no_merge :
  ran_program "git"
    (st_trace (snd (@_try_merge_commit (scripted plain_commit) (start world0))))
    = true /\
  fst (@_try_merge_commit (scripted plain_commit) (start world0))
    = Raise (mk_exn OtherException "HEAD is not a merge commit").
Proof.
  rewrite (@merge_commit_needs_two_parents (scripted plain_commit)
             (start world0) (mk_cp 0 "4f2a9c1" "") world0 eq_refl eq_refl
             ltac:(vm_compute; lia)).
  by split.
Defined.

(** A timeout and a failure of the agent, both answered with text. *)
Lemma codex_failures_are_reported :
  fst (@AgentRunner.execute_agent (scripted agent_times_out)
         "codex" "Review a.py" "gpt-5" (start world0))
    = Ok "Error: Agent execution timed out after 600 seconds" /\
  fst (@AgentRunner.execute_agent (scripted agent_out_of_quota)
         "codex" "Review a.py" "gpt-5" (start world0))
    = Ok "Error: Agent execution failed with return code 3: quota exceeded".
Proof.
  split.
  - edestruct (@agent_outcome_becomes_text (scripted agent_times_out)
                 "codex" (AgentRunner.mk_config "codex" "OPENAI_API_KEY" "gpt-5" [])
                 "Review a.py" "gpt-5" (start world0))
      as (cmd_args & env & Hcmd & Henv & Hout);
      [run | discriminate | run | run |].
    injection Hcmd as <-.
    exact (Hout _ _ eq_refl).
  - edestruct (@agent_outcome_becomes_text (scripted agent_out_of_quota)
                 "codex" (AgentRunner.mk_config "codex" "OPENAI_API_KEY" "gpt-5" [])
                 "Review a.py" "gpt-5" (start world0))
      as (cmd_args & env & Hcmd & Henv & Hout);
      [run | discriminate | run | run |].
    injection Hcmd as <-.
    exact (Hout _ _ eq_refl).
Defined.

(** An unknown agent name, and an agent that is not installed. *)
Lemma missing_agent_is_reported :
  @AgentRunner.execute_agent (scripted agent_missing)
    "mystery" "Review this." "m" (start empty_world)
    = (Ok "Error: Unsupported agent: mystery", start empty_world) /\
  fst (@AgentRunner.execute_agent (scripted agent_missing)
         "claude" "Review this." "m" (start empty_world))
    = Ok "Error: claude not found. Please ensure it's installed or set install-agent: true".
Proof.
  split.
  - apply (proj1 (@execute_agent_refuses_early
                    (scripted agent_missing)
                    "mystery" "Review this." "m" (start empty_world))).
    run.
  - rewrite (proj2 (@execute_agent_refuses_early
                      (scripted agent_missing)
                      "claude" "Review this." "m" (start empty_world))
                   (AgentRunner.mk_config "claude" "ANTHROPIC_API_KEY"
                      "claude-sonnet-4-20250514" ["--output-format"; "text"])
                   (mk_cp 1 "" "fatal") empty_world
                   ltac:(run) eq_refl ltac:(discriminate)).
    reflexivity.
Defined.

(** The two process starts of a cursor call. *)
Lemma cursor_reads_prompt_from_stdin :
  st_trace (snd (@AgentRunner.execute_agent (scripted feature_branch)
                   "cursor" "Review this." "gpt-5" (start empty_world)))
    = [EvRun ["which"; "cursor-agent"] None;
       EvRun ["cursor-agent"; "-p"; "--output-format"; "text"; "--force";
              "--model"; "gpt-5"] (Some "Review this.")].
Proof.
  exact (@cursor_prompt_on_stdin (scripted feature_branch)
           "Review this." "gpt-5" (start empty_world)
           (mk_cp 0 "/usr/bin/agent" "")
           (mk_state empty_world [EvRun ["which"; "cursor-agent"] None])
           ltac:(run) eq_refl).
Defined.

(** The two process starts of a codex call. *)
Lemma codex_reads_prompt_from_arguments :
  exists cmd_args,
    st_trace (snd (@AgentRunner.execute_agent (scripted feature_branch)
                     "codex" "Review this." "gpt-5" (start empty_world)))
      = [EvRun ["which"; "codex"] None] ++ [EvRun cmd_args None] /\
    head cmd_args = Some "codex" /\
    last cmd_args = Some "Review this.".
Proof.
  exact (@other_agents_prompt_as_argument (scripted feature_branch)
           "codex" (AgentRunner.mk_config "codex" "OPENAI_API_KEY" "gpt-5" [])
           "Review this." "gpt-5" (start empty_world)
           (mk_cp 0 "/usr/bin/agent" "")
           (mk_state empty_world [EvRun ["which"; "codex"] None])
           ltac:(run) ltac:(discriminate) ltac:(run)).
Defined.

(** After a cursor call the temporary file is gone. *)
Lemma cursor_run_removes_temp_file :
  fs (st_world (snd (@AgentRunner.execute_agent (scripted feature_branch)
                       "cursor" "Review this." "gpt-5" (start empty_world))))
    !! "/tmp/tmpq1w2e3.txt" = None.
Proof.
  exact (@cursor_temp_file_removed (scripted feature_branch)
           "Review this." "gpt-5" (start empty_world)
           (mk_cp 0 "/usr/bin/agent" "")
           (mk_state empty_world [EvRun ["which"; "cursor-agent"] None])
           ltac:(run) eq_refl).
Defined.

(** A custom file that does not exist. *)
Lemma missing_custom_file_is_recorded :
  @process_custom_file (scripted feature_branch) run0 []
    "extra/missing.prompt" (start world0)
    = (Ok [("extra/missing.prompt",
            "Error: Custom file validation failed for extra/missing.prompt")],
       start world0).
Proof.
  refine (@invalid_custom_file_is_recorded (scripted feature_branch) run0 []
            "extra/missing.prompt" (start world0)
            "/work/extra/missing.prompt" eq_refl ltac:(run) _).
  intros (f & L & _). vm_compute in L. discriminate.
Defined.

(** MODEL set, and MODEL unset. *)
Lemma model_override_and_default :
  fst (@AgentRunner.setup_agent_environment (scripted feature_branch)
         "claude" (start pr_world)) = Ok "sonnet-4" /\
  fst (@AgentRunner.setup_agent_environment (scripted feature_branch)
         "claude" (start world0)) = Ok "claude-sonnet-4-20250514".
Proof.
  split.
  - destruct (@agent_model_selection (scripted feature_branch) "claude"
                (AgentRunner.mk_config "claude" "ANTHROPIC_API_KEY"
                   "claude-sonnet-4-20250514" ["--output-format"; "text"])
                (start pr_world) ltac:(run)) as (st' & E & _).
    rewrite E. run.
  - destruct (@agent_model_selection (scripted feature_branch) "claude"
                (AgentRunner.mk_config "claude" "ANTHROPIC_API_KEY"
                   "claude-sonnet-4-20250514" ["--output-format"; "text"])
                (start world0) ltac:(run)) as (st' & E & _).
    rewrite E. run.
Defined.



(** Two rules, a missing custom file and a custom prompt. *)
Lemma results_of_a_full_run :
  exists by_rule by_file by_prompt,
    fs (st_world
          (snd (@main (scripted feature_branch)
                  (mk_args "security performance" "Summarise." "cursor"
                           "changed" "extra/missing.prompt")
                  (start world0))))
      !! "results.json"
      = Some (plain_file (@json_dump (scripted feature_branch)
                            (by_rule ++ by_file ++ by_prompt))) /\
    map fst by_rule = ["security"; "performance"] /\
    length by_file = 1%nat /\
    map fst by_prompt = ["custom"] /\
    Forall (fun rec => snd rec <> "") (by_rule ++ by_file ++ by_prompt).
Proof.
  exact (@main_results_in_order (scripted feature_branch)
           (mk_args "security performance" "Summarise." "cursor"
                    "changed" "extra/missing.prompt")
           (start world0)
           (snd (@main (scripted feature_branch)
                   (mk_args "security performance" "Summarise." "cursor"
                            "changed" "extra/missing.prompt")
                   (start world0)))
           ltac:(run)).
Defined.

(** Three command lines: one argument too many, a request for help, and
    a single rule with the defaults for the rest. *)
Example command_lines :
  @main_of_argv (scripted feature_branch)
    ["[]"; ""; "cursor"; "changed"; "[]"; "verbose"] (start world0)
    = (Exit 2, start world0) /\
  @main_of_argv (scripted feature_branch) ["--help"] (start world0)
    = (Exit 0, start world0) /\
  exit_status
    (fst (@main_of_argv (scripted feature_branch) ["security"]
            (start world0))) = 0.
Proof. repeat split; run. Qed.

(** An action directory without templates. *)
Lemma run_without_templates :
  exit_status
    (fst (@main_body (scripted feature_branch)
            (mk_args "security" "" "cursor" "changed" "[]") "/action"
            (start empty_world))) = 1 /\
  fs (st_world
        (snd (@main_body (scripted feature_branch)
                (mk_args "security" "" "cursor" "changed" "[]") "/action"
                (start empty_world)))) = fs empty_world.
Proof.
  refine (@missing_prompt_files_are_fatal (scripted feature_branch)
            (mk_args "security" "" "cursor" "changed" "[]") "/action"
            (start empty_world)
            (AgentRunner.mk_config "cursor-agent" "CURSOR_API_KEY" "gpt-5"
               ["-p"; "--output-format"; "text"; "--force"])
            _ ltac:(run) _).
  - intros; reflexivity.
  - by left.
Defined.

End MoreRuns.
